(** * Katana: shallow embedding of the preset adapter, the benchmark run
    and the UI interaction helpers, with their specifications. *)

From Stdlib Require Import String Ascii ZArith Lia List.
From Stdlib Require Import DecimalZ.
From stdpp Require Import base list gmap strings.

Import ListNotations.
Local Open Scope string_scope.

(* ===================================================================== *)
(** ** Python text primitives used by the code *)
(* ===================================================================== *)

Module Py.

(** Characters of a Python [str] are modelled as 8-bit characters. *)

Definition dq : ascii := "034".
Definition tab : ascii := "009".
Definition nl : ascii := "010".
Definition rbrace : ascii := "}".
Definition bslash : ascii := "092".

Definition s1 (c : ascii) : string := String c EmptyString.

(** [\s] of a [str] pattern on code points below 256: [\t\n\v\f\r],
    [\x1c]-[\x1f], space, [\x85] and [\xa0]. *)
Definition is_space (c : ascii) : bool :=
  let n := nat_of_ascii c in
  ((9 <=? n)%nat && (n <=? 13)%nat) || ((28 <=? n)%nat && (n <=? 32)%nat)
  || (n =? 133)%nat || (n =? 160)%nat.

(** [str.replace(old_char, new)] for a one-character [old]. *)
Fixpoint replace_char (old : ascii) (new s : string) : string :=
  match s with
  | EmptyString => EmptyString
  | String c s' =>
      if Ascii.eqb c old then new ++ replace_char old new s'
      else String c (replace_char old new s')
  end.

Fixpoint has_char (c : ascii) (s : string) : bool :=
  match s with
  | EmptyString => false
  | String d s' => Ascii.eqb c d || has_char c s'
  end.

(** [str(n)] for a Python [int]. *)

Fixpoint uint_str (u : Decimal.uint) : string :=
  match u with
  | Decimal.Nil => EmptyString
  | Decimal.D0 u' => String "0" (uint_str u')
  | Decimal.D1 u' => String "1" (uint_str u')
  | Decimal.D2 u' => String "2" (uint_str u')
  | Decimal.D3 u' => String "3" (uint_str u')
  | Decimal.D4 u' => String "4" (uint_str u')
  | Decimal.D5 u' => String "5" (uint_str u')
  | Decimal.D6 u' => String "6" (uint_str u')
  | Decimal.D7 u' => String "7" (uint_str u')
  | Decimal.D8 u' => String "8" (uint_str u')
  | Decimal.D9 u' => String "9" (uint_str u')
  end.

Definition int_str (z : Z) : string :=
  match Z.to_int z with
  | Decimal.Pos u => uint_str u
  | Decimal.Neg u => String "-" (uint_str u)
  end.

(** [needle in hay] *)
Fixpoint str_contains (needle hay : string) : bool :=
  String.prefix needle hay
  || match hay with
     | EmptyString => false
     | String _ hay' => str_contains needle hay'
     end.

End Py.

Import Py.

(* ===================================================================== *)
(** ** The setting pattern of [apply_preset]: a double quote, the key, a
       double quote, [\s+], a double quote, [[^dq]*] and a double quote *)
(* ===================================================================== *)

Module Regex.

(** The key is spliced into the pattern unescaped.  Its characters are
    literals, except [.], which matches any character but a newline.
    Keys with any other regex metacharacter, and replacement strings with
    a backslash (which [re.sub] treats as an escape), are outside the
    modelled fragment and are taken to raise [re.error]. *)
Inductive atom := Lit (c : ascii) | AnyNoNl.

Definition metachars : string := "\()[]{}*+?|^$".

Fixpoint compile_key (key : string) : option (list atom) :=
  match key with
  | EmptyString => Some []
  | String c k' =>
      if has_char c metachars then None
      else match compile_key k' with
           | None => None
           | Some p => Some ((if Ascii.eqb c "." then AnyNoNl else Lit c) :: p)
           end
  end.

Definition atom_ok (a : atom) (c : ascii) : bool :=
  match a with
  | Lit d => Ascii.eqb c d
  | AnyNoNl => negb (Ascii.eqb c nl)
  end.

(** Match the key atoms at the start of [s]; the rest of [s] after them. *)
Fixpoint match_atoms (p : list atom) (s : string) : option string :=
  match p, s with
  | [], _ => Some s
  | a :: p', String c s' => if atom_ok a c then match_atoms p' s' else None
  | _ :: _, EmptyString => None
  end.

(** Greedy runs: [\s+] and [[^dq]*] are each followed by a double quote,
    which neither of them matches, so the greedy run is the only way on. *)
Fixpoint span_ws (s : string) : nat * string :=
  match s with
  | String c s' => if is_space c then let '(n, r) := span_ws s' in (S n, r)
                   else (0%nat, s)
  | EmptyString => (0%nat, s)
  end.

Fixpoint span_nonquote (s : string) : nat * string :=
  match s with
  | String c s' => if Ascii.eqb c dq then (0%nat, s)
                   else let '(n, r) := span_nonquote s' in (S n, r)
  | EmptyString => (0%nat, s)
  end.

Definition expect_dq (s : string) : option string :=
  match s with
  | String c s' => if Ascii.eqb c dq then Some s' else None
  | EmptyString => None
  end.

(** Length of a match of the setting pattern anchored at the start of [s]. *)
Definition match_here (p : list atom) (s : string) : option nat :=
  match expect_dq s with
  | None => None
  | Some s1 =>
    match match_atoms p s1 with
    | None => None
    | Some s2 =>
      match expect_dq s2 with
      | None => None
      | Some s3 =>
        let '(w, s4) := span_ws s3 in
        if (w =? 0)%nat then None else
        match expect_dq s4 with
        | None => None
        | Some s5 =>
          let '(m, s6) := span_nonquote s5 in
          match expect_dq s6 with
          | None => None
          | Some _ => Some (1 + length p + 1 + w + 1 + m + 1)%nat
          end
        end
      end
    end
  end.

(** [re.search(pattern, s).group(0)]: the leftmost match. *)
Fixpoint search (p : list atom) (s : string) : option string :=
  match match_here p s with
  | Some n => Some (substring 0 n s)
  | None => match s with
            | EmptyString => None
            | String _ s' => search p s'
            end
  end.

(** [re.sub(pattern, repl, s)] with a literal [repl]: every
    non-overlapping match, scanning left to right.  [skip] counts the
    characters of the last match still to be dropped. *)
Fixpoint sub_go (p : list atom) (repl : string) (skip : nat) (s : string)
  : string :=
  match s with
  | EmptyString => EmptyString
  | String c s' =>
    match skip with
    | S k => sub_go p repl k s'
    | O => match match_here p s with
           | Some (S n) => repl ++ sub_go p repl n s'
           | _ => String c (sub_go p repl 0 s')
           end
    end
  end.

Definition sub (p : list atom) (repl s : string) : string := sub_go p repl 0 s.

End Regex.

Import Regex.

(* ===================================================================== *)
(** ** CS2PresetAdapter ([katana/games/cs2/presets.py]) *)
(* ===================================================================== *)

Module Preset.

(** JSON values of a preset file: booleans, integers, and any other value
    through its [str()] text. *)
Inductive pyval := PyBool (b : bool) | PyInt (z : Z) | PyStr (s : string).

Definition setting_str (v : pyval) : string :=
  match v with
  | PyBool b => if b then "1" else "0"
  | PyInt z => int_str z
  | PyStr s => s
  end.

(** A Python dict in insertion order. *)
Definition preset := list (string * pyval).

Definition dict_has (p : preset) (k : string) : bool :=
  existsb (fun kv => String.eqb (fst kv) k) p.

Definition replacement (key value : string) : string :=
  s1 dq ++ key ++ s1 dq ++ s1 tab ++ s1 tab ++ s1 dq ++ value ++ s1 dq.

(** The [for key, value in preset_data.items()] loop: the new config text
    and [settings_applied], or [None] when it raises. *)
Fixpoint update_settings (items : preset) (content : string) (applied : nat)
  : option (string * nat) :=
  match items with
  | [] => Some (content, applied)
  | (key, v) :: rest =>
    if String.eqb key "name" || String.eqb key "description" then
      update_settings rest content applied
    else
      let value := setting_str v in
      let repl := replacement key value in
      match compile_key key with
      | None => None
      | Some pat =>
        match search pat content with
        | Some m =>
          if String.eqb m repl then update_settings rest content applied
          else if has_char bslash repl then None
          else update_settings rest (sub pat repl content) (S applied)
        | None =>
          update_settings rest
            (replace_char rbrace (s1 tab ++ repl ++ s1 nl ++ s1 rbrace) content)
            (S applied)
        end
      end
  end.

(** The file system: path text to file contents. *)
Abbreviation fsys := (gmap string string).

(** A [pathlib.Path] through its [parent] and [name]. *)
Record path := mkPath { parent : string; name : string }.

Definition full (c : path) : string := parent c ++ "/" ++ name c.

(** [self.config_path.exists()], [None] standing for an unset path. *)
Definition cfg_exists (fs : fsys) (cfg : option path) : bool :=
  match cfg with
  | None => false
  | Some c => bool_decide (is_Some (fs !! full c))
  end.

(** [shutil.copy2(src, dst)]; it raises when [src] is missing or when both
    name the same file. *)
Definition copy2 (fs : fsys) (src dst : string) : option fsys :=
  if String.eqb src dst then None
  else match fs !! src with
       | None => None
       | Some data => Some (<[dst := data]> fs)
       end.

(** [time.strftime] is an input: [ts] is the timestamp text it returns. *)
Definition backup_name (c : path) (ts : string) : string :=
  parent c ++ "/" ++ name c ++ ".backup_" ++ ts.

(** [backup_config(backup_path=None)] *)
Definition backup_config (fs : fsys) (cfg : option path) (backup_path : option string)
    (ts : string) : option string * fsys :=
  match cfg with
  | None => (None, fs)
  | Some c =>
    if negb (cfg_exists fs cfg) then (None, fs) else
    let bp := match backup_path with Some b => b | None => backup_name c ts end in
    match copy2 fs (full c) bp with
    | Some fs' => (Some bp, fs')
    | None => (None, fs)
    end
  end.

(** [restore_backup(backup_path)]; with no config path the copy raises. *)
Definition restore_backup (fs : fsys) (cfg : option path) (backup_path : string)
  : bool * fsys :=
  if negb (bool_decide (is_Some (fs !! backup_path))) then (false, fs) else
  match cfg with
  | None => (false, fs)
  | Some c =>
    match copy2 fs backup_path (full c) with
    | Some fs' => (true, fs')
    | None => (false, fs)
    end
  end.

Definition required_settings : list string :=
  ["setting.defaultres"; "setting.defaultresheight"].

(** [missing_settings = [s for s in required_settings if s not in preset_data]] *)
Definition missing_settings (p : preset) : list string :=
  List.filter (fun s => negb (dict_has p s)) required_settings.

(** The [try] block of [apply_preset]: read, update, write when
    [settings_applied > 0]; on an exception restore the backup, if any.
    The write of the updated text and the restoring copy are taken to
    succeed: a write that fails after [open(..., "w")] has emptied the
    file is not modelled. *)
Definition rewrite_config (fs : fsys) (c : path) (p : preset)
    (backup_path : option string) : bool * fsys :=
  let on_error :=
    match backup_path with
    | Some bp => (false, snd (restore_backup fs (Some c) bp))
    | None => (false, fs)
    end in
  match fs !! full c with
  | None => on_error
  | Some content =>
    match update_settings p content 0 with
    | None => on_error
    | Some (content', applied) =>
      if (0 <? applied)%nat then (true, <[full c := content']> fs)
      else (true, fs)
    end
  end.

(** [apply_preset] from the backup step on, once the preset is accepted. *)
Definition apply_preset_checked (fs : fsys) (c : path) (p : preset)
    (backup : bool) (ts : string) : bool * fsys :=
  if backup then
    match backup_config fs (Some c) None ts with
    | (None, fs1) => (false, fs1)
    | (Some bp, fs1) => rewrite_config fs1 c p (Some bp)
    end
  else rewrite_config fs c p None.

(** [CS2PresetAdapter.apply_preset(preset_data, backup)] *)
Definition apply_preset (fs : fsys) (cfg : option path) (p : preset)
    (backup : bool) (ts : string) : bool * fsys :=
  match cfg with
  | None => (false, fs)
  | Some c =>
    if negb (cfg_exists fs cfg) then (false, fs)
    else if (match p with [] => true | _ => false end) then (false, fs)
    else if negb (match missing_settings p with [] => true | _ => false end)
    then (false, fs)
    else apply_preset_checked fs c p backup ts
  end.

End Preset.

(* ===================================================================== *)
(** ** BenchmarkResult and GameBenchmark ([katana/core/benchmark.py]) with
       the CS2 steps ([katana/games/cs2/benchmark.py]) *)
(* ===================================================================== *)

Module Bench.

(** Times ([time.time()]) and durations are integer milliseconds. *)
Record result := mkResult {
  game_id : string;
  run_id : Z;
  timestamp : string;
  duration : option Z;
  avg_fps : option Z;
  min_fps : option Z;
  max_fps : option Z;
  screenshot_path : option string;
  raw_data : list (string * string)
}.

(** [BenchmarkResult.__init__]; [ts] is what [time.strftime] returns. *)
Definition new_result (gid : string) (rid : Z) (ts : string) : result :=
  mkResult gid rid ts None None None None None [].

Definition set_duration (r : result) (d : option Z) : result :=
  mkResult (game_id r) (run_id r) (timestamp r) d (avg_fps r) (min_fps r)
    (max_fps r) (screenshot_path r) (raw_data r).

Definition set_screenshot_path (r : result) (p : option string) : result :=
  mkResult (game_id r) (run_id r) (timestamp r) (duration r) (avg_fps r)
    (min_fps r) (max_fps r) p (raw_data r).

(** [BenchmarkResult.save]: the path it writes.  The [/] of [pathlib] is
    modelled as text concatenation. *)
Definition result_path (output_dir : string) (r : result) : string :=
  output_dir ++ "/" ++ game_id r ++ "_run" ++ int_str (run_id r) ++ "_"
  ++ timestamp r ++ ".json".

Definition default_output_dir : string := "results".

Inductive step :=
  | Launch | Focus | WaitReady | Navigate | StartBench | Collect (rid : Z)
  | Teardown.

Inductive field := FDuration | FScreenshotPath.

(** What a run does, in order: step calls, result construction, field
    assignments on the result, [self.results.append] and [save]. *)
Inductive event :=
  | Call (s : step)
  | NewResult (gid : string) (rid : Z)
  | SetField (f : field)
  | Append (r : result)
  | Save (r : result) (file : string).

Record state := mkState {
  results : list result;
  benchmark_start_time : option Z;
  benchmark_end_time : option Z;
  benchmark_duration : option Z;
  trace : list event
}.

(** The outside world of one run: which step raises when it is entered,
    the configured launcher, the detector's answers with the clock at
    that moment, the screenshot path and the timestamp. *)
Record env := mkEnv {
  raises : step -> bool;
  launcher : string;
  first_frame_at : option Z;   (** [benchmark_first_frame.png] seen *)
  end_screen_at : option Z;    (** [benchmark_end_screen.png] seen *)
  screenshot : option string;  (** [take_screenshot] *)
  result_ts : string;          (** [time.strftime] in [__init__] *)
  save_fails : bool            (** [BenchmarkResult.save] raises: its
                                   [mkdir], [open] or [write] fails *)
}.

Definition GAME_ID : string := "730".

(** A state and exception monad: [None] is a raised exception; the state
    reached up to the raise is kept. *)
Definition M (A : Type) := state -> option A * state.

Definition ret {A} (a : A) : M A := fun s => (Some a, s).
Definition throw {A} : M A := fun s => (None, s).
Definition bind {A B} (m : M A) (k : A -> M B) : M B :=
  fun s => match m s with
           | (Some a, s') => k a s'
           | (None, s') => (None, s')
           end.
Definition catch {A} (m : M A) (h : M A) : M A :=
  fun s => match m s with
           | (None, s') => h s'
           | r => r
           end.
Definition get : M state := fun s => (Some s, s).
Definition modify (f : state -> state) : M unit := fun s => (Some tt, f s).

#[global] Instance M_ret : MRet M := @ret.
#[global] Instance M_bind : MBind M := fun A B k m => bind m k.

Definition emit (e : event) : M unit :=
  modify (fun s => mkState (results s) (benchmark_start_time s)
                     (benchmark_end_time s) (benchmark_duration s)
                     (trace s ++ [e])).

Definition set_start_time (t : Z) : M unit :=
  modify (fun s => mkState (results s) (Some t) (benchmark_end_time s)
                     (benchmark_duration s) (trace s)).
Definition set_end_time (t : Z) : M unit :=
  modify (fun s => mkState (results s) (benchmark_start_time s) (Some t)
                     (benchmark_duration s) (trace s)).
Definition set_bench_duration (d : Z) : M unit :=
  modify (fun s => mkState (results s) (benchmark_start_time s)
                     (benchmark_end_time s) (Some d) (trace s)).
Definition append_result (r : result) : M unit :=
  modify (fun s => mkState (results s ++ [r]) (benchmark_start_time s)
                     (benchmark_end_time s) (benchmark_duration s)
                     (trace s ++ [Append r])).

(** Entering a step: it is recorded, then raises or runs its body. *)
Definition call (e : env) (st : step) {A} (body : M A) : M A :=
  emit (Call st) ;; if raises e st then throw else body.

(** [GameBenchmark.launch]: only the Steam launcher is supported. *)
Definition launch (e : env) : M unit :=
  call e Launch
    (if String.eqb (launcher e) "steam" then ret tt else throw).

Definition focus_game_window (e : env) : M unit := call e Focus (ret tt).
Definition wait_until_ready (e : env) : M unit := call e WaitReady (ret tt).
Definition navigate_to_benchmark (e : env) : M unit := call e Navigate (ret tt).

(** [CS2Benchmark.start_benchmark]: records the start time once the first
    benchmark frame is seen. *)
Definition start_benchmark (e : env) : M unit :=
  call e StartBench
    (match first_frame_at e with
     | Some t => set_start_time t
     | None => ret tt
     end).

(** [time.sleep(x)] raises for a length below zero ([ValueError]) and for
    one beyond CPython's clock range of [2^63 - 1] nanoseconds
    ([OverflowError]); [sleep_raises_ms] takes the length in
    milliseconds, [sleep_raises_s] in whole seconds. *)
Definition PyTime_MAX : Z := 9223372036854775807.

Definition sleep_raises_ms (ms : Z) : bool :=
  (ms <? 0)%Z || (PyTime_MAX <? ms * 1000000)%Z.

Definition sleep_raises_s (secs : Z) : bool :=
  (secs <? 0)%Z || (PyTime_MAX <? secs * 1000000000)%Z.

(** [CS2Benchmark.collect_results(run_id)] *)
Definition collect_results (e : env) (rid : Z) : M (option result) :=
  call e (Collect rid)
    (let r := new_result GAME_ID rid (result_ts e) in
     emit (NewResult GAME_ID rid) ;;
     if (rid =? 0)%Z then
       match end_screen_at e with
       | Some t_end =>
         set_end_time t_end ;;
         s ← get ;
         match benchmark_start_time s with
         | None => throw   (** [float - None] raises [TypeError] *)
         | Some t0 =>
           let d := (t_end - t0)%Z in
           set_bench_duration d ;;
           emit (SetField FDuration) ;;
           let r1 := set_duration r (Some d) in
           emit (SetField FScreenshotPath) ;;
           ret (Some (set_screenshot_path r1 (screenshot e)))
         end
       | None => ret None
       end
     else
       s ← get ;
       match benchmark_duration s with
       | None => ret None
       | Some known =>
         (** [time.sleep(known_duration + 12)] *)
         if sleep_raises_ms (known + 12000) then throw else
         emit (SetField FScreenshotPath) ;;
         let r1 := set_screenshot_path r (screenshot e) in
         emit (SetField FDuration) ;;
         ret (Some (set_duration r1 (Some known)))
       end).

Definition teardown (e : env) : M unit := call e Teardown (ret tt).

(** [BenchmarkResult.save()] with the default output directory; the
    [Save] event is the file written. *)
Definition save (e : env) (r : result) : M unit :=
  if save_fails e then throw
  else emit (Save r (result_path default_output_dir r)).

(** The dry-run log line formats [self.benchmark_duration:.2f]; the
    [hasattr] guard always holds (the attribute is set in [__init__]), and
    formatting [None] raises [TypeError]. *)
Definition dry_run_log (is_dry_run : bool) : M unit :=
  if is_dry_run then
    s ← get ;
    match benchmark_duration s with
    | None => throw
    | Some _ => ret tt
    end
  else ret tt.

(** The first five steps of a run. *)
Definition prepare (e : env) : M unit :=
  launch e ;;
  focus_game_window e ;;
  wait_until_ready e ;;
  navigate_to_benchmark e ;;
  start_benchmark e.

(** [GameBenchmark.execute_benchmark_run(run_id, is_dry_run)] *)
Definition execute_benchmark_run (e : env) (rid : Z) (is_dry_run : bool)
  : M (option result) :=
  catch
    (prepare e ;;
     result ← collect_results e rid ;
     dry_run_log is_dry_run ;;
     teardown e ;;
     match result with
     | Some r => append_result r ;; save e r ;; ret (Some r)
     | None => ret None
     end)
    (ret None).


(** The steps called, in order, in a list of events. *)
Fixpoint calls (ev : list event) : list step :=
  match ev with
  | [] => []
  | Call st :: ev' => st :: calls ev'
  | _ :: ev' => calls ev'
  end.

(** The events [prepare] may emit: calls of the first five steps. *)
Definition prep_event (x : event) : bool :=
  match x with
  | Call Launch | Call Focus | Call WaitReady | Call Navigate
  | Call StartBench => true
  | _ => false
  end.

(** The events that may follow [collect_results]: the call of
    [teardown], [self.results.append] and [save]; no construction and no
    field assignment. *)
Definition post_event (x : event) : bool :=
  match x with
  | Call Teardown | Append _ | Save _ _ => true
  | _ => false
  end.

Definition is_set_field (x : event) : bool :=
  match x with SetField _ => true | _ => false end.

(** The events a call of [collect_results(rid)] may emit: its call, then
    at most the construction of one result of run [rid], directly followed
    by field assignments only. *)
Definition collect_shape (rid : Z) (ev : list event) : bool :=
  match ev with
  | [Call (Collect r)] => (r =? rid)%Z
  | Call (Collect r) :: NewResult g r' :: fs =>
      (r =? rid)%Z && String.eqb g GAME_ID && (r' =? rid)%Z
      && forallb is_set_field fs
  | _ => false
  end.

(** Whether the seven steps of a run return normally: [None] when one
    of them raises, otherwise what [collect_results] returned. *)
Definition step_outcome (e : env) (rid : Z) (s : state) : option (option result) :=
  match prepare e s with
  | (None, _) => None
  | (Some _, s1) =>
    match collect_results e rid s1 with
    | (None, _) => None
    | (Some res, _) => if raises e Teardown then None else Some res
    end
  end.

End Bench.

(* ===================================================================== *)
(** ** GameInteractor ([katana/core/interaction.py]) *)
(* ===================================================================== *)

Module Interact.

(** [click_template_with_retry]: [outcome k] is what the [k]-th call of
    [click_template] returns.  The result and the number of calls made. *)
Fixpoint retry_go (outcome : nat -> bool) (attempt left : nat) : bool * nat :=
  match left with
  | O => (false, attempt)
  | S l => if outcome attempt then (true, S attempt)
           else retry_go outcome (S attempt) l
  end.

Definition click_template_with_retry (outcome : nat -> bool) (max_retries : Z)
  : bool * nat :=
  retry_go outcome 0 (Z.to_nat (max_retries + 1)).

(** The [wait_disappear] loop of [click_template].  Each element of [obs]
    is one turn: the [time.time()] reading of the loop test, and whether
    [find_template] then still finds the template.  The result: whether the
    template disappeared, and the number of [find_template] polls; [None]
    when [obs] ends before the loop does. *)
Fixpoint disappear_wait (start_time timeout : Z) (obs : list (Z * bool))
  : option (bool * nat) :=
  match obs with
  | [] => None
  | (t, found) :: rest =>
    if (t - start_time <? timeout)%Z then
      if negb found then Some (true, 1%nat)
      else match disappear_wait start_time timeout rest with
           | Some (b, n) => Some (b, S n)
           | None => None
           end
    else Some (false, 0%nat)
  end.

(** [click_template]: [m] is the detector's match, [click] the outcome of
    [self.click] at a point, [start_time] the clock when the wait starts.
    The returned value and the number of polls. *)
Definition click_template (m : option (Z * Z)) (click_offset : Z * Z)
    (click : Z -> Z -> bool) (wait_disappear : bool)
    (disappear_timeout start_time : Z) (obs : list (Z * bool))
  : option (bool * nat) :=
  match m with
  | None => Some (false, 0%nat)
  | Some (x, y) =>
    let success := click (x + fst click_offset)%Z (y + snd click_offset)%Z in
    if success && wait_disappear then
      match disappear_wait start_time disappear_timeout obs with
      | Some (true, n) => Some (true, n)
      | Some (false, n) => Some (success, n)
      | None => None
      end
    else Some (success, 0%nat)
  end.

(** The number of polls the wait can make before its clock passes
    [timeout]: times are integer milliseconds and each failed poll is
    followed by [time.sleep(0.5)], i.e. at least 500 ms. *)
Definition polls_bound (timeout : Z) : nat := Z.to_nat ((timeout + 499) / 500).

End Interact.

(* ===================================================================== *)
(** ** Concrete inputs *)
(* ===================================================================== *)

Module Samples.

(** One settings line of a CS2 video config, as the file writes them. *)
Definition cfg_line (k v : string) : string :=
  s1 tab ++ s1 dq ++ k ++ s1 dq ++ s1 tab ++ s1 tab ++ s1 dq ++ v ++ s1 dq
  ++ s1 nl.

Definition cfg_text (body : string) : string :=
  s1 dq ++ "video.cfg" ++ s1 dq ++ s1 nl ++ "{" ++ s1 nl ++ body ++ "}"
  ++ s1 nl.

(** A config with a setting the preset does not name, whose value holds a
    closing brace. *)
Definition label_line : string := cfg_line "setting.label" "a}b".

Definition brace_config : string :=
  cfg_text (cfg_line "setting.defaultres" "1920"
            ++ cfg_line "setting.defaultresheight" "1080" ++ label_line).

(** A preset that adds a setting missing from that config. *)
Definition fullscreen_preset : Preset.preset :=
  [("name", Preset.PyStr "High"); ("setting.defaultres", Preset.PyInt 1920);
   ("setting.defaultresheight", Preset.PyInt 1080);
   ("setting.fullscreen", Preset.PyBool true)].

Definition cs2_cfg : Preset.path :=
  Preset.mkPath "C:/Steam/userdata/1/730/local/cfg" "cs2_video.txt".

Definition brace_fs : Preset.fsys := {[ Preset.full cs2_cfg := brace_config ]}.

(** The text the write leaves in the config file. *)
Definition inserted : string :=
  s1 tab ++ Preset.replacement "setting.fullscreen" "1" ++ s1 nl ++ "}".

Definition brace_written : string :=
  s1 dq ++ "video.cfg" ++ s1 dq ++ s1 nl ++ "{" ++ s1 nl
  ++ cfg_line "setting.defaultres" "1920"
  ++ cfg_line "setting.defaultresheight" "1080"
  ++ s1 tab ++ s1 dq ++ "setting.label" ++ s1 dq ++ s1 tab ++ s1 tab ++ s1 dq
  ++ "a" ++ inserted ++ "b" ++ s1 dq ++ s1 nl
  ++ inserted ++ s1 nl.

(** The two resolution keys the preset check requires. *)
Definition k_res : string := "setting.defaultres".
Definition k_resh : string := "setting.defaultresheight".

(** A CS2 run where no step raises: Steam launcher, first frame seen at
    1000 ms, the end screen at [end_screen] if it is detected. *)
Definition cs2_env (end_screen : option Z) : Bench.env :=
  Bench.mkEnv (fun _ => false) "steam" (Some 1000%Z) end_screen
    (Some "results/screenshots/cs2_benchmark_result_run0.png") "20250101_120000"
    false.

(** A freshly constructed benchmark object. *)
Definition fresh : Bench.state := Bench.mkState [] None None None [].

End Samples.

(* ===================================================================== *)
(** ** GameBenchmark.run_benchmark_series ([katana/core/benchmark.py]) *)
(* ===================================================================== *)

Module Series.
Import Bench.

(** [time.sleep(cooldown)]; the cooldown is a whole number of seconds. *)
Definition sleep (secs : Z) : M unit :=
  if sleep_raises_s secs then throw else ret tt.

(** The loop [for i in range(1, run_count + 1)], from run [i] on with [k]
    runs left: [execute_benchmark_run(run_id=i, is_dry_run=False)], then
    the cooldown sleep when [i < run_count]; [envs i] is the world run [i]
    meets. *)
Fixpoint later_runs (envs : Z -> env) (run_count cooldown : Z) (i : Z) (k : nat)
  : M unit :=
  match k with
  | O => ret tt
  | S k' =>
    execute_benchmark_run (envs i) i false ;;
    (if (i <? run_count)%Z then sleep cooldown else ret tt) ;;
    later_runs envs run_count cooldown (i + 1)%Z k'
  end.

(** [run_benchmark_series(run_count, cooldown)]; the [hasattr] test always
    holds, the attribute being set in [__init__].  The sleeps are outside
    any [try]: their [ValueError] leaves the series, which is [None]
    here. *)
Definition run_benchmark_series (envs : Z -> env) (run_count cooldown : Z)
  : M (list result) :=
  execute_benchmark_run (envs 0%Z) 0 true ;;
  s ← get ;
  match benchmark_duration s with
  | None => ret (results s)
  | Some _ =>
    sleep cooldown ;;
    later_runs envs run_count cooldown 1 (Z.to_nat run_count) ;;
    s' ← get ;
    ret (results s')
  end.

(** The run ids of a series in the order of the runs: [0], then
    [range(1, run_count + 1)]. *)
Definition series_ids (run_count : Z) : list Z :=
  0%Z :: map Z.of_nat (seq 1 (Z.to_nat run_count)).

Definition is_launch (st : step) : bool :=
  match st with Launch => true | _ => false end.

(** The number of runs started in a list of events: each run enters
    [launch] first. *)
Definition runs_started (ev : list event) : nat :=
  length (List.filter is_launch (calls ev)).

End Series.

(* ===================================================================== *)
(** ** Locating the CS2 config ([katana/games/cs2/presets.py]) *)
(* ===================================================================== *)

Module ConfigSearch.

(** The machine the adapter runs on: [os.name == 'nt'], the
    [SteamPath] registry value ([None] when the lookup raises),
    [Path.home()] ([None] when it raises), [Path.exists], [Path.is_dir]
    and [Path.iterdir] (the children in directory order, [None] when the
    listing raises).  Paths are their text; [/] joins with a slash.
    [Path.exists] and [Path.is_dir] are total here: the case where they
    raise (a [PermissionError], a name too long) is not modelled. *)
Record host := mkHost {
  is_nt : bool;
  registry_steam_path : option string;
  home : option string;
  path_exists : string -> bool;
  path_is_dir : string -> bool;
  iterdir : string -> option (list string)
}.

Definition join (a b : string) : string := a ++ "/" ++ b.

(** [common_paths] of [_find_steam_path], in order. *)
Definition common_paths (hm : string) : list string :=
  [join hm ".steam/steam"; join hm "Library/Application Support/Steam";
   "C:/Program Files (x86)/Steam"; "C:/Program Files/Steam";
   "D:/Program Files (x86)/Steam"; "D:/Program Files/Steam"].

(** [_find_steam_path()].  [Path.home()] is evaluated when the list is
    built; when it raises, the outer [except] returns [None]. *)
Definition find_steam_path (h : host) : option string :=
  match (if is_nt h then registry_steam_path h else None) with
  | Some p => Some p
  | None =>
    match home h with
    | None => None
    | Some hm => List.find (path_exists h) (common_paths hm)
    end
  end.

(** The three file names tried in a user directory, in order. *)
Definition cfg_candidates (user_dir : string) : list string :=
  let d := join (join (join user_dir "730") "local") "cfg" in
  [join d "cs2_video.txt"; join d "video.cfg"; join d "video.txt"].

(** The [for user_dir in userdata_path.iterdir()] loop. *)
Fixpoint search_users (h : host) (dirs : list string) : option string :=
  match dirs with
  | [] => None
  | u :: rest =>
    if negb (path_is_dir h u) then search_users h rest
    else match List.find (path_exists h) (cfg_candidates u) with
         | Some p => Some p
         | None => search_users h rest
         end
  end.

(** [_find_config_path()]: [Some r] is the value returned, [None] an
    exception ([iterdir] is not guarded by a [try]). *)
Definition find_config_path (h : host) : option (option string) :=
  match find_steam_path h with
  | None => Some None
  | Some sp =>
    let ud := join sp "userdata" in
    if negb (path_exists h ud) then Some None
    else match iterdir h ud with
         | None => None
         | Some dirs => Some (search_users h dirs)
         end
  end.

(** [CS2PresetAdapter.__init__(config_path)]: the [config_path] it keeps
    ([Path(config_path) if config_path else None], then the search). *)
Definition init_config_path (h : host) (config_path : option string)
  : option (option string) :=
  match config_path with
  | Some p => if String.eqb p "" then find_config_path h else Some (Some p)
  | None => find_config_path h
  end.

End ConfigSearch.

(* ===================================================================== *)
(** ** PresetManager ([katana/core/presets.py]) *)
(* ===================================================================== *)

Module Manager.
Import Preset.

(** The disk the manager reads: the files ([fsys]), which directories
    exist, and what [json.load] makes of a file's text.  [load_preset]
    gives the preset dict of a preset file ([None] when [json.load]
    raises); [load_index] gives the items of [presets_data.get(
    "presets", {})] of a [presets.json] ([None] when loading, [.get] or
    [.items()] raises; a missing key gives no items).  A preset file whose
    JSON value is not a dict is not modelled, and [exists()] is taken
    not to raise. *)
Record disk := mkDisk {
  files : fsys;
  dir_exists : string -> bool;
  load_preset : string -> option preset;
  load_index : string -> option (list (string * string))
}.

Definition file_exists (d : disk) (p : string) : bool :=
  bool_decide (is_Some (files d !! p)).

Definition game_dir (presets_dir game_id : string) : string :=
  presets_dir ++ "/" ++ game_id.

Definition preset_file (presets_dir game_id preset_id : string) : string :=
  game_dir presets_dir game_id ++ "/" ++ preset_id ++ ".json".


(** [get_preset_data(game_id, preset_id)] *)
Definition get_preset_data (d : disk) (presets_dir game_id preset_id : string)
  : preset :=
  match files d !! preset_file presets_dir game_id preset_id with
  | None => []
  | Some text => match load_preset d text with Some p => p | None => [] end
  end.

(** A registered adapter through its [apply_preset(preset_data, backup)]:
    the value returned and the files after. *)
Definition adapter := fsys -> preset -> bool -> bool * fsys.

(** [PresetManager.apply_preset(game_id, preset_id, backup)]; the listing
    printed when the preset file is missing changes no file. *)
Definition apply_preset (adapters : gmap string adapter) (d : disk)
    (presets_dir game_id preset_id : string) (backup : bool) : bool * fsys :=
  match adapters !! game_id with
  | None => (false, files d)
  | Some a =>
    if negb (file_exists d (preset_file presets_dir game_id preset_id))
    then (false, files d)
    else
      match get_preset_data d presets_dir game_id preset_id with
      | [] => (false, files d)
      | data => a (files d) data backup
      end
  end.



End Manager.

(* ===================================================================== *)
(** ** The prompts of [katana/main.py] *)
(* ===================================================================== *)

(** Each prompt reads lines with [input()] until one is accepted; the list
    of lines is the user's input, and [None] is the [EOFError] that
    [input()] raises once it is exhausted (the prompts catch only
    [ValueError]).  [str.strip] and [int] are Python's and left as
    parameters: [int_parse t = None] is the [ValueError] of [int(t)]. *)
Module Prompt.
Import Manager.

Section Input.
Variable strip : string -> string.
Variable int_parse : string -> option Z.

(** [prompt_for_game(available_games)] *)
Fixpoint prompt_for_game (available_games : list string) (inputs : list string)
  : option string :=
  match inputs with
  | [] => None
  | x :: xs =>
    match int_parse (strip x) with
    | None => prompt_for_game available_games xs
    | Some n =>
      let index := (n - 1)%Z in
      if (0 <=? index)%Z && (index <? Z.of_nat (length available_games))%Z
      then Some (nth (Z.to_nat index) available_games "")
      else prompt_for_game available_games xs
    end
  end.

(** [prompt_for_runs()] *)
Fixpoint prompt_for_runs (inputs : list string) : option Z :=
  match inputs with
  | [] => None
  | x :: xs =>
    match int_parse (strip x) with
    | None => prompt_for_runs xs
    | Some runs => if (0 <? runs)%Z then Some runs else prompt_for_runs xs
    end
  end.

(** [prompt_for_cooldown()] *)
Fixpoint prompt_for_cooldown (inputs : list string) : option Z :=
  match inputs with
  | [] => None
  | x :: xs =>
    match int_parse (strip x) with
    | None => prompt_for_cooldown xs
    | Some cooldown =>
      if (0 <=? cooldown)%Z then Some cooldown else prompt_for_cooldown xs
    end
  end.



End Input.

End Prompt.

Module Samples2.

(** A preset setting whose name is not a valid pattern: the unbalanced
    parenthesis makes [re.search] raise. *)
Definition bad_key_preset : Preset.preset :=
  [("setting.defaultres", Preset.PyInt 1920);
   ("setting.defaultresheight", Preset.PyInt 1080);
   ("setting(x", Preset.PyInt 1)].



(** A machine where the registry names a Steam folder that has no
    [userdata], while the default Windows folder holds a CS2 config. *)
Definition stale_registry_host : ConfigSearch.host :=
  ConfigSearch.mkHost true (Some "E:/OldSteam") (Some "C:/Users/u")
    (fun p => String.eqb p "C:/Program Files (x86)/Steam"
              || String.eqb p "C:/Program Files (x86)/Steam/userdata"
              || String.eqb p
                   "C:/Program Files (x86)/Steam/userdata/1/730/local/cfg/cs2_video.txt")
    (fun _ => true)
    (fun _ => Some ["C:/Program Files (x86)/Steam/userdata/1"]).

(** [int] on the short decimal strings the prompt samples use. *)
Definition small_int (t : string) : option Z :=
  if String.eqb t "0" then Some 0%Z
  else if String.eqb t "1" then Some 1%Z
  else if String.eqb t "2" then Some 2%Z
  else if String.eqb t "3" then Some 3%Z
  else if String.eqb t "-1" then Some (-1)%Z
  else None.

End Samples2.

(* ===================================================================== *)
(** * Specifications *)
(* ===================================================================== *)

Module StringFacts.

(** [String.append] is [simpl never] under stdpp: its two equations. *)
Lemma sapp_nil (b : string) : EmptyString ++ b = b.
Proof. reflexivity. Qed.

Lemma sapp_cons (x : ascii) (a b : string) : String x a ++ b = String x (a ++ b).
Proof. reflexivity. Qed.

Lemma sapp_assoc (a b c : string) : (a ++ b) ++ c = a ++ (b ++ c).
Proof.
  induction a as [|x a IH]; [reflexivity|]. rewrite !sapp_cons. now rewrite IH.
Qed.

Lemma sapp_length (a b : string) :
  String.length (a ++ b) = (String.length a + String.length b)%nat.
Proof.
  induction a as [|x a IH]; [reflexivity|]. rewrite sapp_cons. simpl. now rewrite IH.
Qed.

Lemma has_char_app (c : ascii) (a b : string) :
  has_char c (a ++ b) = has_char c a || has_char c b.
Proof.
  induction a as [|x a IH]; [reflexivity|]. rewrite sapp_cons. simpl.
  rewrite IH. now destruct (Ascii.eqb c x).
Qed.

End StringFacts.

Module PresetSpec.
Import StringFacts Preset Samples.

Lemma full_ne_backup_name (c : path) (ts : string) :
  String.eqb (full c) (backup_name c ts) = false.
Proof.
  apply String.eqb_neq. intros Heq.
  apply (f_equal String.length) in Heq.
  unfold full, backup_name in Heq.
  rewrite !sapp_length in Heq. simpl in Heq. lia.
Qed.

Lemma backup_name_ne_full (c : path) (ts : string) :
  String.eqb (backup_name c ts) (full c) = false.
Proof. rewrite String.eqb_sym. apply full_ne_backup_name. Qed.

Lemma backup_config_ok (fs : fsys) (c : path) (ts content : string) :
  fs !! full c = Some content ->
  backup_config fs (Some c) None ts
  = (Some (backup_name c ts), <[backup_name c ts := content]> fs).
Proof.
  intros Hc. unfold backup_config, cfg_exists, copy2.
  rewrite Hc, full_ne_backup_name. simpl. reflexivity.
Qed.

Lemma restore_backup_ok (fs : fsys) (c : path) (bp content : string) :
  fs !! bp = Some content -> String.eqb bp (full c) = false ->
  restore_backup fs (Some c) bp = (true, <[full c := content]> fs).
Proof.
  intros Hb Hne. unfold restore_backup, copy2.
  rewrite Hb, Hne. reflexivity.
Qed.

Lemma compile_key_no_meta (k : string) (pat : list atom) (c : ascii) :
  compile_key k = Some pat -> has_char c metachars = true ->
  has_char c k = false.
Proof.
  revert pat. induction k as [|x k IH]; intros pat Hk Hm; [reflexivity|].
  cbn [has_char].
  cbn [compile_key] in Hk.
  destruct (has_char x metachars) eqn:Hx; [inversion Hk|].
  destruct (compile_key k) as [p|] eqn:Hk'; [|inversion Hk].
  rewrite (IH p eq_refl Hm).
  destruct (Ascii.eqb c x) eqn:Hcx; [|reflexivity].
  apply Ascii.eqb_eq in Hcx. subst. congruence.
Qed.

Lemma replacement_no_bslash (k v : string) (pat : list atom) :
  compile_key k = Some pat -> has_char bslash v = false ->
  has_char bslash (replacement k v) = false.
Proof.
  intros Hk Hv. unfold replacement.
  rewrite !has_char_app, (compile_key_no_meta k pat bslash Hk eq_refl), Hv.
  reflexivity.
Qed.

(** The settings loop does not raise when every key is in the modelled
    regex fragment and no value has a backslash. *)
Lemma update_settings_some (items : preset) (content : string) (n : nat) :
  Forall (fun kv => is_Some (compile_key kv.1)
                    /\ has_char bslash (setting_str kv.2) = false) items ->
  is_Some (update_settings items content n).
Proof.
  revert content n. induction items as [|[k v] items IH];
    intros content n Hall; cbn [update_settings]; [eexists; reflexivity|].
  inversion Hall as [|? ? [[pat Hk] Hv] Hrest]; subst.
  destruct (String.eqb k "name" || String.eqb k "description"); [now apply IH|].
  simpl in Hk, Hv. rewrite Hk.
  destruct (search pat content) as [m|].
  - destruct (String.eqb m (replacement k (setting_str v))); [now apply IH|].
    rewrite (replacement_no_bslash k _ pat Hk Hv). now apply IH.
  - now apply IH.
Qed.

(** When every setting already reads as its replacement, the loop leaves
    the text and the count as they are. *)
Lemma update_settings_unchanged (items : preset) (content : string) (n : nat) :
  (forall k v, In (k, v) items -> k <> "name" -> k <> "description" ->
     exists pat, compile_key k = Some pat
                 /\ search pat content = Some (replacement k (setting_str v))) ->
  update_settings items content n = Some (content, n).
Proof.
  revert n. induction items as [|[k v] items IH]; intros n Hall;
    cbn [update_settings]; [reflexivity|].
  destruct (String.eqb k "name") eqn:Hn.
  { simpl. apply IH. intros; eapply Hall; eauto. right; eauto. }
  destruct (String.eqb k "description") eqn:Hd.
  { simpl. apply IH. intros; eapply Hall; eauto. right; eauto. }
  simpl.
  destruct (Hall k v (or_introl eq_refl)) as [pat [Hk Hs]];
    [now apply String.eqb_neq | now apply String.eqb_neq |].
  rewrite Hk, Hs, String.eqb_refl. apply IH.
  intros; eapply Hall; eauto. right; eauto.
Qed.

Lemma apply_preset_accepted (fs : fsys) (c : path) (p : preset) (backup : bool)
    (ts content : string) :
  fs !! full c = Some content -> dict_has p k_res = true ->
  dict_has p k_resh = true ->
  apply_preset fs (Some c) p backup ts = apply_preset_checked fs c p backup ts.
Proof.
  intros Hc H1 H2. unfold apply_preset, cfg_exists. rewrite Hc. simpl.
  destruct p as [|kv p]; [discriminate H1|].
  unfold missing_settings, required_settings. cbn [List.filter].
  unfold k_res, k_resh in *. rewrite H1, H2. reflexivity.
Qed.

Lemma rewrite_config_lookup (fs : fsys) (c : path) (p : preset)
    (bp : option string) (content : string) :
  fs !! full c = Some content ->
  rewrite_config fs c p bp
  = match update_settings p content 0 with
    | None => match bp with
              | Some b => (false, snd (restore_backup fs (Some c) b))
              | None => (false, fs)
              end
    | Some (content', applied) =>
      if (0 <? applied)%nat then (true, <[full c := content']> fs) else (true, fs)
    end.
Proof. intros Hc. unfold rewrite_config. now rewrite Hc. Qed.

(** C1 (code_bug) -----------------------------------------------------
    Adding a setting missing from the config goes through
    [str.replace] on every closing brace.  On a config whose
    [setting.label] value holds a brace, [apply_preset] writes the new
    setting into the middle of that line as well as before the final
    brace: the line of a setting the preset does not name is changed. *)
Theorem apply_preset_rewrites_unnamed_line :
  let r := apply_preset Samples.brace_fs (Some Samples.cs2_cfg)
             Samples.fullscreen_preset false "20250101_120000" in
  fst r = true
  /\ snd r !! full Samples.cs2_cfg = Some Samples.brace_written
  /\ str_contains Samples.label_line Samples.brace_config = true
  /\ str_contains Samples.label_line Samples.brace_written = false.
Proof. vm_compute. repeat split. Qed.

(** C2 -----------------------------------------------------------------
    Backup and restore round-trip: [backup_config] copies the config file
    to [<config>.backup_<timestamp>] and returns that path; afterwards, as
    long as that backup file still holds the copy, [restore_backup] with the
    returned path succeeds and sets the config file back to the content it
    had at backup time. *)
Theorem backup_restore_roundtrip (fs : fsys) (c : path) (ts content : string) :
  fs !! full c = Some content ->
  backup_config fs (Some c) None ts
    = (Some (backup_name c ts), <[backup_name c ts := content]> fs)
  /\ (forall fs2 : fsys, fs2 !! backup_name c ts = Some content ->
        restore_backup fs2 (Some c) (backup_name c ts)
        = (true, <[full c := content]> fs2)).
Proof.
  intros Hc. split; [now apply backup_config_ok|].
  intros fs2 Hb. apply restore_backup_ok; [exact Hb|].
  apply backup_name_ne_full.
Qed.

Lemma backup_restore_roundtrip_witness :
  Samples.brace_fs !! full Samples.cs2_cfg = Some Samples.brace_config
  /\ backup_config Samples.brace_fs (Some Samples.cs2_cfg) None "20250101_120000"
     = (Some (backup_name Samples.cs2_cfg "20250101_120000"),
        <[backup_name Samples.cs2_cfg "20250101_120000" := Samples.brace_config]>
          Samples.brace_fs).
Proof.
  split; [vm_compute; reflexivity|].
  apply (backup_restore_roundtrip Samples.brace_fs Samples.cs2_cfg
           "20250101_120000" Samples.brace_config).
  vm_compute. reflexivity.
Defined.

(** C3 -----------------------------------------------------------------
    Validation checks exactly the two resolution keys: an empty preset, or
    one without [setting.defaultres] or [setting.defaultresheight], makes
    [apply_preset] return [False] with the file system untouched; a preset
    with both keys always gets past validation, whatever else it holds; and
    the preset holding just these two keys is applied ([True]) to any
    existing config when their values have no backslash. *)
Theorem apply_preset_validation :
  (forall (fs : fsys) (cfg : option path) (p : preset) (backup : bool) (ts : string),
     p = [] \/ dict_has p k_res = false \/ dict_has p k_resh = false ->
     apply_preset fs cfg p backup ts = (false, fs))
  /\ (forall (fs : fsys) (c : path) (p : preset) (backup : bool) (ts content : string),
        fs !! full c = Some content ->
        dict_has p k_res = true -> dict_has p k_resh = true ->
        apply_preset fs (Some c) p backup ts = apply_preset_checked fs c p backup ts)
  /\ (forall (fs : fsys) (c : path) (v1 v2 : pyval) (backup : bool) (ts content : string),
        fs !! full c = Some content ->
        has_char bslash (setting_str v1) = false ->
        has_char bslash (setting_str v2) = false ->
        fst (apply_preset fs (Some c) [(k_res, v1); (k_resh, v2)] backup ts) = true).
Proof.
  split; [|split].
  - intros fs cfg p backup ts Hp. unfold apply_preset.
    destruct cfg as [c|]; [|reflexivity].
    destruct (negb (cfg_exists fs (Some c))); [reflexivity|].
    destruct Hp as [->|[H|H]]; [reflexivity| |];
      (destruct p as [|kv p]; [reflexivity|]);
      unfold missing_settings, required_settings; cbn [List.filter];
      unfold k_res, k_resh in H; rewrite H;
      destruct (dict_has (kv :: p) "setting.defaultres"); reflexivity.
  - intros fs c p backup ts content Hc H1 H2.
    now apply (apply_preset_accepted fs c p backup ts content).
  - intros fs c v1 v2 backup ts content Hc Hv1 Hv2.
    rewrite (apply_preset_accepted fs c [(k_res, v1); (k_resh, v2)] backup ts
               content Hc eq_refl eq_refl).
    assert (Hsome : is_Some (update_settings [(k_res, v1); (k_resh, v2)] content 0)).
    { apply update_settings_some.
      repeat constructor; simpl; try assumption; eexists; reflexivity. }
    destruct Hsome as [[content' n] Hu].
    unfold apply_preset_checked. destruct backup.
    + rewrite (backup_config_ok fs c ts content Hc).
      rewrite (rewrite_config_lookup _ c _ _ content).
      * rewrite Hu. now destruct (0 <? n)%nat.
      * rewrite lookup_insert_ne; [exact Hc|].
        apply String.eqb_neq. apply backup_name_ne_full.
    + rewrite (rewrite_config_lookup _ c _ _ content Hc), Hu.
      now destruct (0 <? n)%nat.
Qed.

Lemma apply_preset_validation_witness :
  apply_preset Samples.brace_fs (Some Samples.cs2_cfg)
    [("setting.defaultres", PyInt 1920)] true "20250101_120000"
    = (false, Samples.brace_fs)
  /\ fst (apply_preset Samples.brace_fs (Some Samples.cs2_cfg)
            [(k_res, PyInt 1280); (k_resh, PyInt 720)] true "20250101_120000")
     = true.
Proof.
  split.
  - apply (proj1 apply_preset_validation). right; right. reflexivity.
  - apply (proj2 (proj2 apply_preset_validation)) with (content := Samples.brace_config);
      vm_compute; reflexivity.
Defined.

(** C9 -----------------------------------------------------------------
    When every non-metadata setting of an accepted preset already reads
    [key<TAB><TAB>value] at its first occurrence in the config (no setting
    is applied), [apply_preset] returns [True] and does not write the
    config file: the only file written is the backup, when requested. *)
Theorem apply_preset_nothing_to_change (fs : fsys) (c : path) (p : preset)
    (backup : bool) (ts content : string) :
  fs !! full c = Some content ->
  dict_has p k_res = true -> dict_has p k_resh = true ->
  (forall k v, In (k, v) p -> k <> "name" -> k <> "description" ->
     exists pat, compile_key k = Some pat
                 /\ search pat content = Some (replacement k (setting_str v))) ->
  apply_preset fs (Some c) p backup ts
  = (true, if backup then <[backup_name c ts := content]> fs else fs).
Proof.
  intros Hc H1 H2 Hall.
  rewrite (apply_preset_accepted fs c p backup ts content Hc H1 H2).
  unfold apply_preset_checked. destruct backup.
  - rewrite (backup_config_ok fs c ts content Hc).
    rewrite (rewrite_config_lookup _ c _ _ content).
    + now rewrite (update_settings_unchanged p content 0 Hall).
    + rewrite lookup_insert_ne; [exact Hc|].
      apply String.eqb_neq. apply backup_name_ne_full.
  - rewrite (rewrite_config_lookup _ c _ _ content Hc).
    now rewrite (update_settings_unchanged p content 0 Hall).
Qed.

Lemma apply_preset_nothing_to_change_witness :
  apply_preset Samples.brace_fs (Some Samples.cs2_cfg)
    [("name", PyStr "High"); (k_res, PyInt 1920); (k_resh, PyInt 1080)]
    true "20250101_120000"
  = (true, <[backup_name Samples.cs2_cfg "20250101_120000" := Samples.brace_config]>
             Samples.brace_fs).
Proof.
  apply (apply_preset_nothing_to_change Samples.brace_fs Samples.cs2_cfg _ true
           "20250101_120000" Samples.brace_config);
    [vm_compute; reflexivity | reflexivity | reflexivity |].
  intros k v Hin Hn Hd. simpl in Hin.
  destruct Hin as [H|[H|[H|[]]]]; injection H as <- <-;
    [congruence | |]; eexists; split; vm_compute; reflexivity.
Defined.

End PresetSpec.

Module BenchSpec.
Import Bench Samples.

Ltac unfold_run :=
  cbv beta iota zeta delta [execute_benchmark_run catch prepare mbind M_bind
    bind launch call emit modify ret throw focus_game_window wait_until_ready
    navigate_to_benchmark start_benchmark collect_results dry_run_log teardown
    append_result save get set_start_time set_end_time set_bench_duration mret
    M_ret step_outcome].

(** Split a run on every test the code makes, in the order it makes them. *)
Ltac run_cases :=
  unfold_run; simpl;
  repeat (match goal with
          | |- context [if ?b then _ else _] => destruct b eqn:?
          | |- context [match ?o with Some _ => _ | None => _ end] =>
              destruct o eqn:?
          end; simpl).

Ltac new_events := rewrite <- ?app_assoc; reflexivity.

(** C4 (counterexample) ------------------------------------------------
    A result is assigned fields after its construction: in a dry run that
    sees the end screen, [collect_results] builds the result and then sets
    its [duration] and [screenshot_path]. *)
Lemma result_fields_set_after_init :
  exists post,
    trace (snd (execute_benchmark_run (cs2_env (Some 61000%Z)) 0 true fresh))
    = ([Call Launch; Call Focus; Call WaitReady; Call Navigate; Call StartBench;
        Call (Collect 0)] ++ NewResult GAME_ID 0 :: post)%list
    /\ In (SetField FDuration) post /\ In (SetField FScreenshotPath) post.
Proof.
  eexists. split; [vm_compute; reflexivity|]. simpl. tauto.
Qed.

Lemma prepare_effect (e : env) (s : state) :
  exists ev, trace (snd (prepare e s)) = (trace s ++ ev)%list
    /\ forallb prep_event ev = true.
Proof. run_cases; eexists; (split; [new_events | reflexivity]). Qed.

Lemma collect_effect (e : env) (rid : Z) (s : state) :
  exists ev, trace (snd (collect_results e rid s)) = (trace s ++ ev)%list
    /\ collect_shape rid ev = true
    /\ (forall r, fst (collect_results e rid s) = Some (Some r) ->
          In (SetField FDuration) ev /\ In (SetField FScreenshotPath) ev).
Proof.
  run_cases; eexists; (split; [new_events|]);
    (split; [simpl; rewrite ?Z.eqb_refl;
             reflexivity|]);
    intros r Hr; try discriminate Hr; simpl; tauto.
Qed.

Ltac c4_rest Hp1 Hp2 Hc1 Hc2 Hc3 :=
  split; [exact Hp1|]; split; [exact Hp2|];
  split; [rewrite ?Hc1, ?Hp1; rewrite <- ?app_assoc;
          first [reflexivity | rewrite app_nil_r; reflexivity]|];
  split; [intros Hn; discriminate Hn|];
  split; [intros _; split; [exact Hc1|]; split; [exact Hc2 | exact Hc3]|];
  reflexivity.

(** C4 (amended) -------------------------------------------------------
    The events of a run split in three: [prepare] calls only the first
    five steps; then come exactly the events of the call of
    [collect_results(run_id)], which constructs at most one result, of
    this run, and assigns only fields of it directly after the
    construction; when it returns a result, both [duration] and
    [screenshot_path] have been assigned.  After [collect_results] has
    returned, no result is constructed and no field assigned: only
    [teardown] is called and the result appended and saved.  When
    [prepare] raises, nothing follows it. *)
Theorem result_assigned_only_in_collect (e : env) (rid : Z) (dry : bool)
    (s : state) :
  let s1 := snd (prepare e s) in
  let s' := snd (execute_benchmark_run e rid dry s) in
  exists ev_pre ev_col ev_post,
    trace s1 = (trace s ++ ev_pre)%list
    /\ forallb prep_event ev_pre = true
    /\ trace s' = (trace s ++ ev_pre ++ ev_col ++ ev_post)%list
    /\ (fst (prepare e s) = None -> ev_col = [] /\ ev_post = [])
    /\ (fst (prepare e s) <> None ->
        trace (snd (collect_results e rid s1)) = (trace s1 ++ ev_col)%list
        /\ collect_shape rid ev_col = true
        /\ (forall r, fst (collect_results e rid s1) = Some (Some r) ->
              In (SetField FDuration) ev_col
              /\ In (SetField FScreenshotPath) ev_col))
    /\ forallb post_event ev_post = true.
Proof.
  cbv zeta.
  destruct (prepare_effect e s) as (evp & Hp1 & Hp2).
  unfold execute_benchmark_run, catch. cbv [mbind M_bind bind].
  destruct (prepare e s) as [[u|] s1] eqn:Hp; cbn [fst snd] in *.
  2: { exists evp, [], []. cbv [ret]. cbn [snd]. rewrite !app_nil_r.
       split; [exact Hp1|]. split; [exact Hp2|]. split; [exact Hp1|].
       split; [intros _; split; reflexivity|].
       split; [intros Hn; contradiction Hn; reflexivity | reflexivity]. }
  destruct (collect_effect e rid s1) as (evc & Hc1 & Hc2 & Hc3).
  destruct (collect_results e rid s1) as [[res|] s2] eqn:Hc; cbn [fst snd] in *.
  - cbv [dry_run_log teardown call emit modify get ret throw append_result save
         mbind M_bind bind mret M_ret].
    simpl.
    repeat (match goal with
            | |- context [if ?b then _ else _] => destruct b eqn:?
            | |- context [match ?o with Some _ => _ | None => _ end] =>
                destruct o eqn:?
            end; simpl).
    all: exists evp, evc;
      first [ exists (@nil event); c4_rest Hp1 Hp2 Hc1 Hc2 Hc3
            | eexists; c4_rest Hp1 Hp2 Hc1 Hc2 Hc3 ].
  - cbv [ret]. cbn [snd]. exists evp, evc, [].
    c4_rest Hp1 Hp2 Hc1 Hc2 Hc3.
Qed.







(** C10 (counterexample) -----------------------------------------------
    When writing the result file fails, the run returns [None] although
    the result has already been appended to [self.results]: no step
    raises, [collect_results] returns a result, and the result is
    recorded without the run completing. *)
Lemma result_kept_when_save_fails :
  let e := mkEnv (fun _ => false) "steam" (Some 1000%Z) (Some 61000%Z)
             (Some "results/screenshots/cs2_benchmark_result_run0.png")
             "20250101_120000" true in
  is_Some (default None (step_outcome e 0 fresh))
  /\ fst (execute_benchmark_run e 0 false fresh) = Some None
  /\ results (snd (execute_benchmark_run e 0 false fresh)) <> results fresh.
Proof.
  split; [|split]; [vm_compute; eexists; reflexivity | vm_compute; reflexivity
                   | vm_compute; discriminate].
Qed.

(** C10 (amended) ------------------------------------------------------
    A run's result is appended to [self.results] iff none of the seven
    steps raises and [collect_results] returns a result; in every other
    case the function returns [None] and [self.results] is unchanged.
    Once appended, the result is saved to its file and returned when
    [result.save()] succeeds. *)
Theorem execute_records_iff_complete (e : env) (rid : Z) (dry : bool)
    (s : state) :
  let '(ret, s') := execute_benchmark_run e rid dry s in
  match step_outcome e rid s with
  | Some (Some r) =>
      results s' = (results s ++ [r])%list
      /\ (save_fails e = false ->
          ret = Some (Some r)
          /\ In (Save r (result_path default_output_dir r)) (trace s'))
  | _ => ret = Some None /\ results s' = results s
  end.
Proof.
  run_cases; repeat (split || intros ?); try discriminate; try reflexivity;
    try (apply in_or_app; right; simpl; tauto);
    try (rewrite app_nil_r; reflexivity).
Qed.

(** X1 -----------------------------------------------------------------
    A slip of the dry-run branch: the [hasattr] guard always holds, so a
    dry run that starts with [self.benchmark_duration = None] and never
    sees the end screen formats [None] with [:.2f], which raises (or an
    earlier step raises).  Either way the run returns [None], records no
    result, leaves the duration [None], and never calls [teardown]. *)
Remark dry_run_without_end_screen_skips_teardown (e : env) (rid : Z)
    (s : state) :
  benchmark_duration s = None -> end_screen_at e = None ->
  let '(ret, s') := execute_benchmark_run e rid true s in
  ret = Some None /\ results s' = results s /\ benchmark_duration s' = None
  /\ exists ev, trace s' = (trace s ++ ev)%list /\ ~ In Teardown (calls ev).
Proof.
  destruct s as [res st et bd tr]; destruct e as [rz l ff es sc ts sf];
    cbn [benchmark_duration end_screen_at]; intros -> ->.
  run_cases; (split; [reflexivity|]); (split; [reflexivity|]);
    (split; [reflexivity|]); eexists; (split; [new_events|]);
    simpl; intuition discriminate.
Qed.

(** In the CS2 setting with the end screen missing, a fresh benchmark's
    dry run stops after [collect_results]. *)
Lemma dry_run_without_end_screen_skips_teardown_witness :
  benchmark_duration fresh = None /\ end_screen_at (cs2_env None) = None
  /\ calls (trace (snd (execute_benchmark_run (cs2_env None) 0 true fresh)))
     = [Launch; Focus; WaitReady; Navigate; StartBench; Collect 0].
Proof.
  pose proof (dry_run_without_end_screen_skips_teardown (cs2_env None) 0 fresh
                eq_refl eq_refl) as H.
  split; [reflexivity|]. split; [reflexivity|].
  destruct (execute_benchmark_run (cs2_env None) 0 true fresh) as [o s'] eqn:E.
  vm_compute in E. injection E as _ <-. reflexivity.
Defined.

End BenchSpec.

Module PathSpec.
Import Bench StringFacts.

Local Abbreviation L := list_ascii_of_string.

Lemma L_app (a b : string) : L (a ++ b) = (L a ++ L b)%list.
Proof.
  induction a as [|x a IH]; [reflexivity|]. rewrite sapp_cons. simpl. now rewrite IH.
Qed.

Lemma L_inj (a b : string) : L a = L b -> a = b.
Proof.
  intros H. rewrite <- (string_of_list_ascii_of_string a),
    <- (string_of_list_ascii_of_string b), H. reflexivity.
Qed.

Lemma L_length (a : string) : length (L a) = String.length a.
Proof. induction a as [|x a IH]; simpl; [reflexivity | now rewrite IH]. Qed.

Lemma uint_str_inj (u v : Decimal.uint) : uint_str u = uint_str v -> u = v.
Proof.
  revert v. induction u; intros [] H; simpl in H; inversion H; f_equal; auto.
Qed.

Lemma int_str_inj (z1 z2 : Z) : int_str z1 = int_str z2 -> z1 = z2.
Proof.
  unfold int_str. intros H. apply DecimalZ.to_int_inj.
  destruct (Z.to_int z1) as [u1|u1], (Z.to_int z2) as [u2|u2].
  - f_equal. now apply uint_str_inj.
  - destruct u1; simpl in H; discriminate.
  - destruct u2; simpl in H; discriminate.
  - inversion H. f_equal. now apply uint_str_inj.
Qed.

Lemma uint_str_no_n (u : Decimal.uint) : ~ In "n"%char (L (uint_str u)).
Proof. induction u; simpl; intuition discriminate. Qed.

Lemma int_str_no_n (z : Z) : ~ In "n"%char (L (int_str z)).
Proof.
  unfold int_str. destruct (Z.to_int z) as [u|u]; [apply uint_str_no_n|].
  simpl. intros [H|H]; [discriminate | exact (uint_str_no_n u H)].
Qed.

(** Splitting at the first [n]: the part before it has none. *)
Lemma split_first_n (x1 x2 y1 y2 : list ascii) :
  ~ In "n"%char x1 -> ~ In "n"%char x2 ->
  (x1 ++ "n"%char :: y1 = x2 ++ "n"%char :: y2)%list -> x1 = x2 /\ y1 = y2.
Proof.
  revert x2. induction x1 as [|a x1 IH]; intros [|b x2] H1 H2 H; simpl in H.
  - now inversion H.
  - inversion H; subst. exfalso. apply H2. now left.
  - inversion H; subst. exfalso. apply H1. now left.
  - inversion H; subst.
    assert (x1 = x2 /\ y1 = y2) as [-> ->] by (apply IH; simpl in *; tauto).
    split; reflexivity.
Qed.

(** The separator [_run] before a number is its last occurrence. *)
Lemma split_last_run (a1 a2 b1 b2 : list ascii) :
  ~ In "n"%char b1 -> ~ In "n"%char b2 ->
  (a1 ++ L "_run" ++ b1 = a2 ++ L "_run" ++ b2)%list -> a1 = a2 /\ b1 = b2.
Proof.
  intros H1 H2 H. apply (f_equal (@rev ascii)) in H.
  rewrite !rev_app_distr in H. simpl in H. rewrite <- !app_assoc in H.
  simpl in H.
  assert (rev b1 = rev b2
          /\ ("u"%char :: "r"%char :: "_"%char :: rev a1
              = "u"%char :: "r"%char :: "_"%char :: rev a2)%list) as [Hb Ha].
  { apply (split_first_n (rev b1) (rev b2) _ _);
      [rewrite <- in_rev; exact H1 | rewrite <- in_rev; exact H2 | exact H]. }
  injection Ha as Ha.
  apply (f_equal (@rev ascii)) in Ha, Hb. rewrite !rev_involutive in Ha, Hb.
  split; assumption.
Qed.

(** C8 -----------------------------------------------------------------
    [BenchmarkResult.save] writes to
    [output_dir/{game_id}_run{run_id}_{timestamp}.json], a path fixed by the
    triple (game, run, timestamp) alone.  For timestamps of one length (the
    code always builds them with [%Y%m%d_%H%M%S]), two results get the same
    path iff they agree on the triple, so distinct triples get distinct
    paths. *)
Theorem result_path_unique (dir : string) (r1 r2 : result) :
  String.length (timestamp r1) = String.length (timestamp r2) ->
  (result_path dir r1 = result_path dir r2
   <-> game_id r1 = game_id r2 /\ run_id r1 = run_id r2
       /\ timestamp r1 = timestamp r2).
Proof.
  intros Hlen. split.
  - intros H. unfold result_path in H. apply (f_equal L) in H.
    rewrite !L_app in H.
    apply app_inv_head, app_inv_head in H.
    rewrite !app_assoc in H.
    apply app_inv_tail in H.
    apply app_inj_2 in H; [|now rewrite !L_length].
    destruct H as [H Hts]. apply L_inj in Hts.
    apply app_inv_tail in H. rewrite <- !app_assoc in H.
    apply split_last_run in H; [|apply int_str_no_n | apply int_str_no_n].
    destruct H as [Hg Hn]. apply L_inj in Hg, Hn. apply int_str_inj in Hn.
    auto.
  - intros (Hg & Hr & Ht). unfold result_path. now rewrite Hg, Hr, Ht.
Qed.

Lemma result_path_unique_witness :
  result_path default_output_dir (new_result GAME_ID 1 "20250101_120000")
  <> result_path default_output_dir (new_result GAME_ID 2 "20250101_120000").
Proof.
  intros H.
  apply (result_path_unique default_output_dir
           (new_result GAME_ID 1 "20250101_120000")
           (new_result GAME_ID 2 "20250101_120000") eq_refl) in H.
  destruct H as [_ [H _]]. discriminate H.
Defined.

End PathSpec.

Module InteractSpec.
Import Interact.
Local Open Scope Z_scope.

Lemma retry_go_spec (outcome : nat -> bool) (a l : nat) :
  let '(res, n) := retry_go outcome a l in
  (a <= n <= a + l)%nat
  /\ (res = true -> (a < n)%nat /\ outcome (n - 1)%nat = true
                    /\ forall j, (a <= j < n - 1)%nat -> outcome j = false)
  /\ (res = false -> n = (a + l)%nat
                     /\ forall j, (a <= j < n)%nat -> outcome j = false).
Proof.
  revert a. induction l as [|l IH]; intros a; simpl.
  - repeat split; try lia; discriminate.
  - destruct (outcome a) eqn:Ha.
    + split; [lia|]. split.
      * intros _. replace (S a - 1)%nat with a by lia.
        split; [lia|]. split; [exact Ha|]. intros j Hj. lia.
      * discriminate.
    + specialize (IH (S a)). destruct (retry_go outcome (S a) l) as [res n].
      destruct IH as [Hn [Ht Hf]]. split; [lia|]. split.
      * intros H. destruct (Ht H) as (H1 & H2 & H3).
        split; [lia|]. split; [exact H2|].
        intros j Hj. destruct (Nat.eq_dec j a) as [->|]; [exact Ha|]. apply H3; lia.
      * intros H. destruct (Hf H) as [H1 H3]. split; [lia|].
        intros j Hj. destruct (Nat.eq_dec j a) as [->|]; [exact Ha|]. apply H3; lia.
Qed.

(** C6 -----------------------------------------------------------------
    For [max_retries >= 0], [click_template_with_retry] calls
    [click_template] at most [max_retries + 1] times; it returns [True] at
    the first call that returns [True], and returns [False] only after all
    [max_retries + 1] calls have returned [False]. *)
Theorem click_template_with_retry_spec (outcome : nat -> bool) (max_retries : Z) :
  0 <= max_retries ->
  let '(res, n) := click_template_with_retry outcome max_retries in
  (n <= Z.to_nat max_retries + 1)%nat
  /\ (res = true -> (1 <= n)%nat /\ outcome (n - 1)%nat = true
                    /\ forall j, (j < n - 1)%nat -> outcome j = false)
  /\ (res = false -> n = (Z.to_nat max_retries + 1)%nat
                     /\ forall j, (j < n)%nat -> outcome j = false).
Proof.
  intros Hm. unfold click_template_with_retry.
  replace (Z.to_nat (max_retries + 1)) with (Z.to_nat max_retries + 1)%nat by lia.
  pose proof (retry_go_spec outcome 0 (Z.to_nat max_retries + 1)) as H.
  destruct (retry_go outcome 0 _) as [res n].
  destruct H as [Hn [Ht Hf]]. split; [lia|]. split.
  - intros E. destruct (Ht E) as (H1 & H2 & H3).
    split; [lia|]. split; [exact H2|]. intros j Hj. apply H3. lia.
  - intros E. destruct (Hf E) as [H1 H3]. split; [lia|].
    intros j Hj. apply H3. lia.
Qed.

Lemma disappear_wait_first_stop (start timeout : Z) (pre post : list (Z * bool))
    (t : Z) (f : bool) :
  Forall (fun o => o.1 - start < timeout /\ o.2 = true) pre ->
  (timeout <= t - start \/ f = false) ->
  disappear_wait start timeout (pre ++ (t, f) :: post)
  = Some (if t - start <? timeout then (true, S (length pre))
          else (false, length pre)).
Proof.
  intros Hpre Hstop. induction Hpre as [|o pre Ho _ IH]; simpl.
  - destruct (t - start <? timeout) eqn:E; [|reflexivity].
    destruct Hstop as [H|Hf]; [apply Z.ltb_lt in E; lia | now subst f].
  - destruct o as [t' f']. destruct Ho as [Ht' Hf']. simpl in Ht', Hf'.
    subst f'. apply Z.ltb_lt in Ht'. rewrite Ht'. simpl.
    rewrite IH. now destruct (t - start <? timeout).
Qed.

Lemma disappear_wait_bounded_from (start timeout : Z) (obs : list (Z * bool))
    (j0 : nat) :
  (forall j o, nth_error obs j = Some o ->
     start + 500 * Z.of_nat (j0 + j) <= o.1) ->
  (polls_bound timeout < j0 + length obs)%nat ->
  (j0 <= polls_bound timeout)%nat ->
  exists b n, disappear_wait start timeout obs = Some (b, n)
              /\ (j0 + n <= polls_bound timeout)%nat.
Proof.
  unfold polls_bound. revert j0.
  induction obs as [|[t f] rest IH]; intros j0 Hclk Hlen Hj0; simpl in *; [lia|].
  pose proof (Hclk 0%nat (t, f) eq_refl) as Ht. simpl in Ht.
  destruct (t - start <? timeout) eqn:E.
  - apply Z.ltb_lt in E.
    assert (Hk : (j0 + 1 <= Z.to_nat ((timeout + 499) / 500))%nat).
    { assert (500 * Z.of_nat j0 + 1 <= timeout) by lia.
      assert (Z.of_nat j0 + 1 <= (timeout + 499) / 500).
      { apply Z.div_le_lower_bound; lia. }
      lia. }
    destruct f; simpl.
    + destruct (IH (S j0)) as (b & n & Hw & Hn).
      * intros j o Hj. specialize (Hclk (S j) o Hj).
        replace (j0 + S j)%nat with (S j0 + j)%nat in Hclk by lia. exact Hclk.
      * lia.
      * lia.
      * rewrite Hw. exists b, (S n). split; [reflexivity | lia].
    + exists true, 1%nat. split; [reflexivity | lia].
  - exists false, 0%nat. split; [reflexivity | lia].
Qed.

(** C7 -----------------------------------------------------------------
    The wait of [click_template] after a successful click: (1) the value
    returned is always the click's success value ([True]) after a click,
    [False] without a match; (2) the loop stops at the first turn where the
    template is no longer found or [disappear_timeout] has elapsed, and
    only then; (3) when the clock advances by at least 500 ms per poll, it
    stops within [polls_bound timeout] polls, whatever the detector sees.
    Times are integer milliseconds. *)
Theorem click_template_wait_spec :
  (forall m click_offset click wait_disappear disappear_timeout start_time obs b n,
     click_template m click_offset click wait_disappear disappear_timeout
       start_time obs = Some (b, n) ->
     b = match m with
         | Some (x, y) => click (x + click_offset.1) (y + click_offset.2)
         | None => false
         end)
  /\ (forall start_time timeout pre t f post,
        Forall (fun o => o.1 - start_time < timeout /\ o.2 = true) pre ->
        (timeout <= t - start_time \/ f = false) ->
        disappear_wait start_time timeout (pre ++ (t, f) :: post)
        = Some (if t - start_time <? timeout then (true, S (length pre))
                else (false, length pre)))
  /\ (forall start_time timeout (obs : list (Z * bool)),
        (forall j o, nth_error obs j = Some o ->
           start_time + 500 * Z.of_nat j <= o.1) ->
        (polls_bound timeout < length obs)%nat ->
        exists b n, disappear_wait start_time timeout obs = Some (b, n)
                    /\ (n <= polls_bound timeout)%nat).
Proof.
  split; [|split].
  - intros [[x y]|] off click wd tmo st obs b n; simpl.
    + destruct (click _ _) eqn:Hc; simpl; [|intros H; now inversion H].
      destruct wd; [|intros H; now inversion H].
      destruct (disappear_wait st tmo obs) as [[[] k]|]; intros H; now inversion H.
    + intros H. now inversion H.
  - intros. now apply disappear_wait_first_stop.
  - intros st tmo obs Hclk Hlen.
    destruct (disappear_wait_bounded_from st tmo obs 0) as (b & n & Hw & Hn);
      [exact Hclk | lia | lia |].
    exists b, n. split; [exact Hw | lia].
Qed.

Lemma click_template_with_retry_spec_witness :
  0 <= 3
  /\ click_template_with_retry (fun k => Nat.eqb k 2) 3 = (true, 3%nat)
  /\ (3 <= Z.to_nat 3 + 1)%nat.
Proof.
  assert (Hm : 0 <= 3) by lia.
  pose proof (click_template_with_retry_spec (fun k => Nat.eqb k 2) 3 Hm) as H.
  split; [exact Hm|]. split; [reflexivity|].
  destruct (click_template_with_retry (fun k => Nat.eqb k 2) 3) as [res n] eqn:E.
  vm_compute in E. injection E as <- <-. destruct H as [H _]. exact H.
Defined.

Lemma click_template_wait_spec_witness :
  exists b n,
    disappear_wait 0 1000 [(0, true); (500, true); (1000, true)] = Some (b, n)
    /\ (n <= polls_bound 1000)%nat.
Proof.
  destruct click_template_wait_spec as [_ [_ H]].
  apply H.
  - intros j o Ho.
    do 3 (destruct j as [|j]; [inversion Ho; subst; simpl; lia|]).
    destruct j; discriminate Ho.
  - vm_compute. lia.
Defined.

End InteractSpec.

Module SeriesSpec.
Import Bench Series Samples.
Local Open Scope Z_scope.

Ltac unfold_one :=
  cbv beta iota zeta delta [execute_benchmark_run catch prepare mbind M_bind
    bind launch call emit modify ret throw focus_game_window wait_until_ready
    navigate_to_benchmark start_benchmark collect_results dry_run_log teardown
    append_result save get set_start_time set_end_time set_bench_duration mret
    M_ret].

Ltac one_cases :=
  unfold_one; simpl;
  repeat (match goal with
          | |- context [if ?b then _ else _] => destruct b eqn:?
          | |- context [match ?o with Some _ => _ | None => _ end] =>
              destruct o eqn:?
          end; simpl).

Ltac fin_run :=
  split; [rewrite ?app_nil_r; reflexivity|];
  split; [rewrite <- ?app_assoc; reflexivity|];
  split; [reflexivity|];
  split; [simpl; lia|];
  split; [repeat constructor|];
  split; [intros Hn; first [reflexivity | match goal with H : (_ =? 0) = true |- _ => apply Z.eqb_eq in H; contradiction end]|];
  repeat econstructor; simpl; congruence.

Lemma run_effect (e : env) (rid : Z) (dry : bool) (s : state) :
  let '(o, s') := execute_benchmark_run e rid dry s in
  o <> None
  /\ exists rs ev,
       results s' = (results s ++ rs)%list /\ trace s' = (trace s ++ ev)%list
       /\ runs_started ev = 1%nat
       /\ (length rs <= 1)%nat
       /\ Forall (fun r => run_id r = rid /\ game_id r = GAME_ID) rs
       /\ (rid <> 0 -> benchmark_duration s' = benchmark_duration s)
       /\ Forall (fun r => duration r = benchmark_duration s' /\ is_Some (duration r)) rs.
Proof.
  destruct s as [res st et bd tr].
  one_cases; split; try discriminate.
  all: first [ exists []; eexists; fin_run | eexists [_]; eexists; fin_run ].
Qed.


Lemma runs_started_app (ev1 ev2 : list event) :
  runs_started (ev1 ++ ev2) = (runs_started ev1 + runs_started ev2)%nat.
Proof.
  unfold runs_started. induction ev1 as [|[] ev1 IH]; simpl; auto.
  destruct s; simpl; auto.
Qed.

Lemma cooldown_ok (i run_count cooldown : Z) (s : state) :
  sleep_raises_s cooldown = false ->
  (if (i <? run_count) then sleep cooldown else ret tt) s = (Some tt, s).
Proof.
  intros Hc. unfold sleep. rewrite Hc. destruct (i <? run_count); reflexivity.
Qed.

Lemma later_runs_effect (envs : Z -> env) (run_count cooldown i : Z) (k : nat)
    (s : state) :
  0 < i -> sleep_raises_s cooldown = false ->
  let '(o, s') := later_runs envs run_count cooldown i k s in
  o = Some tt /\ benchmark_duration s' = benchmark_duration s
  /\ exists rs ev,
       results s' = (results s ++ rs)%list /\ trace s' = (trace s ++ ev)%list
       /\ runs_started ev = k
       /\ map run_id rs `sublist_of` map Z.of_nat (seq (Z.to_nat i) k)
       /\ Forall (fun r => game_id r = GAME_ID
                          /\ duration r = benchmark_duration s) rs.
Proof.
  intros Hi Hc. revert i s Hi. induction k as [|k IH]; intros i s Hi; simpl.
  - split; [reflexivity|]. split; [reflexivity|].
    exists [], []. rewrite !app_nil_r. repeat split; constructor.
  - cbv [mbind M_bind bind].
    pose proof (run_effect (envs i) i false s) as H1.
    destruct (execute_benchmark_run (envs i) i false s) as [o1 s1].
    destruct H1 as [Ho1 (rs1 & ev1 & Hr1 & Ht1 & Hl1 & Hlen1 & Hid1 & Hd1 & Hdur1)].
    destruct o1 as [o1|]; [|contradiction].
    rewrite (cooldown_ok i run_count cooldown s1 Hc).
    assert (Hi1 : 0 < i + 1) by lia.
    specialize (IH (i + 1) s1 Hi1).
    destruct (later_runs envs run_count cooldown (i + 1) k s1) as [o2 s2].
    destruct IH as [Ho2 [Hd2 (rs2 & ev2 & Hr2 & Ht2 & Hl2 & Hs2 & Hf2)]].
    assert (Hd1' : benchmark_duration s1 = benchmark_duration s) by (apply Hd1; lia).
    split; [exact Ho2|]. split; [congruence|].
    exists (rs1 ++ rs2)%list, (ev1 ++ ev2)%list.
    split; [rewrite Hr2, Hr1, app_assoc; reflexivity|].
    split; [rewrite Ht2, Ht1, app_assoc; reflexivity|].
    split; [rewrite runs_started_app, Hl1, Hl2; reflexivity|].
    split.
    + replace (Z.to_nat (i + 1)) with (S (Z.to_nat i)) in Hs2 by lia.
      rewrite map_app. simpl.
      destruct rs1 as [|r1 [|r' rs1']]; simpl in Hlen1 |- *; [| |lia].
      * now apply sublist_cons.
      * inversion Hid1 as [|? ? [Hrid _]]; subst.
        rewrite Z2Nat.id by lia. now apply sublist_skip.
    + apply Forall_app. split.
      * rewrite List.Forall_forall in Hid1, Hdur1 |- *. intros r Hr.
        destruct (Hid1 r Hr) as [_ Hg]. destruct (Hdur1 r Hr) as [Hdr _].
        split; [exact Hg | congruence].
      * eapply Forall_impl; [exact Hf2|]. intros r [Hg Hdr]. split; [exact Hg|congruence].
Qed.

Lemma series_core (envs : Z -> env) (run_count cooldown : Z) (s : state) :
  let s0 := snd (execute_benchmark_run (envs 0) 0 true s) in
  let '(o, s') := run_benchmark_series envs run_count cooldown s in
  (o = None <-> benchmark_duration s0 <> None /\ sleep_raises_s cooldown = true)
  /\ (o <> None -> o = Some (results s'))
  /\ benchmark_duration s' = benchmark_duration s0
  /\ exists rs ev,
       results s' = (results s ++ rs)%list /\ trace s' = (trace s ++ ev)%list
       /\ runs_started ev = match benchmark_duration s0 with
                            | None => 1%nat
                            | Some _ => if sleep_raises_s cooldown then 1%nat
                                        else S (Z.to_nat run_count)
                            end
       /\ (benchmark_duration s0 = None -> rs = [])
       /\ map run_id rs `sublist_of` series_ids run_count
       /\ Forall (fun r => game_id r = GAME_ID
                          /\ duration r = benchmark_duration s0) rs.
Proof.
  unfold run_benchmark_series. cbv [mbind M_bind bind get ret].
  pose proof (run_effect (envs 0) 0 true s) as H0.
  destruct (execute_benchmark_run (envs 0) 0 true s) as [o0 s0]. simpl.
  destruct H0 as [Ho0 (rs0 & ev0 & Hr0 & Ht0 & Hl0 & Hlen0 & Hid0 & _ & Hdur0)].
  destruct o0 as [o0|]; [|contradiction].
  assert (Hrs0 : map run_id rs0 `sublist_of` [0]).
  { destruct rs0 as [|r0 [|r' rs']]; simpl in Hlen0 |- *; [| |lia].
    - apply sublist_nil_l.
    - inversion Hid0 as [|? ? [Hrid _]]; subst. rewrite Hrid. reflexivity. }
  assert (Hf0 : Forall (fun r => game_id r = GAME_ID
                                /\ duration r = benchmark_duration s0) rs0).
  { rewrite List.Forall_forall in Hid0, Hdur0 |- *. intros r Hr.
    split; [apply Hid0, Hr | apply Hdur0, Hr]. }
  assert (Hsub0 : map run_id rs0 `sublist_of` series_ids run_count).
  { unfold series_ids. change (0 :: map Z.of_nat (seq 1 (Z.to_nat run_count)))
      with ([0] ++ map Z.of_nat (seq 1 (Z.to_nat run_count)))%list.
    rewrite <- (app_nil_r (map run_id rs0)).
    apply sublist_app; [exact Hrs0 | apply sublist_nil_l]. }
  destruct (benchmark_duration s0) as [d|] eqn:Hbd.
  - unfold sleep. destruct (sleep_raises_s cooldown) eqn:Hcn.
    + cbn [fst snd].
      split; [split; [intros _; split; [discriminate | reflexivity] | reflexivity]|].
      split; [intros Hn; contradiction Hn; reflexivity|].
      split; [exact Hbd|].
      exists rs0, ev0. split; [exact Hr0|]. split; [exact Ht0|].
      split; [exact Hl0|]. split; [discriminate|].
      split; [exact Hsub0|]. exact Hf0.
    + cbv [ret M_ret mret].
      pose proof (later_runs_effect envs run_count cooldown 1 (Z.to_nat run_count) s0
                    ltac:(lia) Hcn) as H1.
      destruct (later_runs envs run_count cooldown 1 (Z.to_nat run_count) s0)
        as [o1 s1].
      destruct H1 as [Ho1 [Hd1 (rs1 & ev1 & Hr1 & Ht1 & Hl1 & Hs1 & Hf1)]].
      subst o1. simpl.
      split; [split; [discriminate | intros [_ Hn]; discriminate Hn]|].
      split; [intros _; reflexivity|].
      split; [rewrite Hd1; exact Hbd|].
      exists (rs0 ++ rs1)%list, (ev0 ++ ev1)%list.
      split; [rewrite Hr1, Hr0, app_assoc; reflexivity|].
      split; [rewrite Ht1, Ht0, app_assoc; reflexivity|].
      split; [rewrite runs_started_app, Hl0, Hl1; reflexivity|].
      split; [discriminate|].
      split.
      * unfold series_ids. rewrite map_app.
        change (0 :: map Z.of_nat (seq 1 (Z.to_nat run_count)))
          with ([0] ++ map Z.of_nat (seq (Z.to_nat 1) (Z.to_nat run_count)))%list.
        now apply sublist_app.
      * apply Forall_app. split; [exact Hf0|].
        rewrite ?Hbd in Hf1. exact Hf1.
  - split; [split; [discriminate | intros [Hn _]; contradiction Hn; reflexivity]|].
    split; [intros _; reflexivity|]. split; [exact Hbd|].
    exists rs0, ev0.
    split; [exact Hr0|]. split; [exact Ht0|]. split; [exact Hl0|].
    assert (Hnil : rs0 = []).
    { destruct rs0 as [|r rs]; [reflexivity|].
      inversion Hdur0 as [|? ? [Hd [x Hx]]]; subst. congruence. }
    split; [intros _; exact Hnil|]. subst rs0.
    split; [apply sublist_nil_l | constructor].
Qed.

(** X2 -----------------------------------------------------------------
    [run_benchmark_series] raises exactly when the dry run leaves
    [self.benchmark_duration] set and [time.sleep(cooldown)] refuses the
    cooldown (a negative one, or one beyond the clock range): that sleep
    follows the dry run outside any [try].  Otherwise it returns
    [self.results].  Either way the series only appends to
    [self.results], results of game [730] whose run ids follow the order
    of the runs (the dry run [0], then [1 .. run_count]), with at most one
    result per run. *)
Theorem run_benchmark_series_records (envs : Z -> env) (run_count cooldown : Z)
    (s : state) :
  let s0 := snd (execute_benchmark_run (envs 0) 0 true s) in
  let '(o, s') := run_benchmark_series envs run_count cooldown s in
  (o = None <-> benchmark_duration s0 <> None /\ sleep_raises_s cooldown = true)
  /\ (o <> None -> o = Some (results s'))
  /\ exists rs, results s' = (results s ++ rs)%list
       /\ map run_id rs `sublist_of` series_ids run_count
       /\ Forall (fun r => game_id r = GAME_ID) rs.
Proof.
  pose proof (series_core envs run_count cooldown s) as H. cbv zeta in H |- *.
  destruct (run_benchmark_series envs run_count cooldown s) as [o s'].
  destruct H as [Hn [Ho [_ (rs & ev & Hr & _ & _ & _ & Hs & Hf)]]].
  split; [exact Hn|]. split; [exact Ho|].
  exists rs. split; [exact Hr|]. split; [exact Hs|].
  rewrite List.Forall_forall in Hf |- *. intros r Hin. apply Hf, Hin.
Qed.

(** X3 -----------------------------------------------------------------
    A series starts the dry run and then, only when
    [self.benchmark_duration] is set after it and [time.sleep] accepts the
    cooldown, [run_count] more runs: it starts [1 + run_count] runs ([1]
    for [run_count <= 0]).  It starts exactly one when the dry run leaves
    the duration unset, in which case [self.results] is unchanged, or when
    the cooldown sleep raises. *)
Theorem run_benchmark_series_runs (envs : Z -> env) (run_count cooldown : Z)
    (s : state) :
  let s0 := snd (execute_benchmark_run (envs 0) 0 true s) in
  let s' := snd (run_benchmark_series envs run_count cooldown s) in
  exists ev, trace s' = (trace s ++ ev)%list
    /\ runs_started ev = match benchmark_duration s0 with
                         | None => 1%nat
                         | Some _ => if sleep_raises_s cooldown then 1%nat
                                     else S (Z.to_nat run_count)
                         end
    /\ (benchmark_duration s0 = None -> results s' = results s).
Proof.
  pose proof (series_core envs run_count cooldown s) as H. simpl in H |- *.
  destruct (run_benchmark_series envs run_count cooldown s) as [o s'].
  destruct H as [_ [_ [_ (rs & ev & Hr & Ht & Hl & Hn & _)]]]. cbn [snd].
  exists ev. split; [exact Ht|]. split; [exact Hl|].
  intros Hd. rewrite Hr, (Hn Hd), app_nil_r. reflexivity.
Qed.

(** X4 -----------------------------------------------------------------
    Every result a series records carries the same duration: the value of
    [self.benchmark_duration] after the dry run (the measured one, or the
    one an earlier series left); the later runs never change that
    attribute, which keeps this value when the series ends. *)
Theorem run_benchmark_series_duration (envs : Z -> env) (run_count cooldown : Z)
    (s : state) :
  let s0 := snd (execute_benchmark_run (envs 0) 0 true s) in
  let s' := snd (run_benchmark_series envs run_count cooldown s) in
  benchmark_duration s' = benchmark_duration s0
  /\ exists rs, results s' = (results s ++ rs)%list
       /\ Forall (fun r => duration r = benchmark_duration s0) rs.
Proof.
  pose proof (series_core envs run_count cooldown s) as H. simpl in H |- *.
  destruct (run_benchmark_series envs run_count cooldown s) as [o s'].
  destruct H as [_ [_ [Hd (rs & ev & Hr & _ & _ & _ & _ & Hf)]]]. cbn [snd].
  split; [exact Hd|].
  exists rs. split; [exact Hr|].
  rewrite List.Forall_forall in Hf |- *. intros r Hin. apply Hf, Hin.
Qed.

(** With the default [runs] and [cooldown] of the CS2 config
    ([default_runs = 4], [cooldown = 120]) and the end screen seen, a
    series starts five runs. *)
Lemma run_benchmark_series_runs_witness :
  exists ev,
    trace (snd (run_benchmark_series (fun _ => cs2_env (Some 61000)) 4 120 fresh))
    = (trace fresh ++ ev)%list
    /\ runs_started ev = 5%nat.
Proof.
  destruct (run_benchmark_series_runs (fun _ => cs2_env (Some 61000)) 4 120 fresh)
    as (ev & Ht & Hl & _).
  exists ev. split; [exact Ht|]. rewrite Hl. vm_compute. reflexivity.
Defined.

End SeriesSpec.

Module ConfigSearchSpec.
Import ConfigSearch Samples2.

Lemma find_some_iff {A} (f : A -> bool) (l : list A) (x : A) :
  List.find f l = Some x <->
  exists pre post, l = (pre ++ x :: post)%list /\ f x = true
                   /\ Forall (fun y => f y = false) pre.
Proof.
  induction l as [|a l IH]; simpl.
  - split; [discriminate|]. intros (pre & post & H & _). destruct pre; discriminate.
  - destruct (f a) eqn:Ha; split.
    + intros [=<-]. exists [], l. split; [reflexivity|]. split; [exact Ha|constructor].
    + intros (pre & post & H & Hx & Hpre). destruct pre as [|b pre].
      * simpl in H. injection H as H1 H2. subst. reflexivity.
      * simpl in H. injection H as H1 H2. subst. inversion Hpre; congruence.
    + intros H. apply IH in H as (pre & post & -> & Hx & Hpre).
      exists (a :: pre), post. split; [reflexivity|]. split; [exact Hx|]. constructor; assumption.
    + intros (pre & post & H & Hx & Hpre). destruct pre as [|b pre].
      * simpl in H. injection H as H1 H2. subst. congruence.
      * simpl in H. injection H as H1 H2. subst. inversion Hpre; subst.
        apply IH. eauto.
Qed.

Lemma find_none_iff {A} (f : A -> bool) (l : list A) :
  List.find f l = None <-> Forall (fun y => f y = false) l.
Proof.
  induction l as [|a l IH]; simpl; [split; auto|].
  destruct (f a) eqn:Ha; split.
  - discriminate.
  - intros H. inversion H; congruence.
  - intros H. constructor; [exact Ha | now apply IH].
  - intros H. inversion H; subst. now apply IH.
Qed.

(** X6 -----------------------------------------------------------------
    [_find_steam_path] returns an existing folder, except for the Windows
    registry value, which it returns without checking.  When that value
    names a folder without [userdata], [_find_config_path] returns [None]
    without trying the common Steam locations. *)
Theorem find_steam_path_trust (h : host) :
  (forall p, find_steam_path h = Some p ->
     path_exists h p = true
     \/ (is_nt h = true /\ registry_steam_path h = Some p))
  /\ (forall sp, is_nt h = true -> registry_steam_path h = Some sp ->
        path_exists h (join sp "userdata") = false ->
        find_config_path h = Some None).
Proof.
  split.
  - intros p. unfold find_steam_path.
    destruct (is_nt h) eqn:Hnt; [destruct (registry_steam_path h) eqn:Hr|].
    + intros [= <-]. right. split; reflexivity.
    + destruct (home h); [|discriminate]. intros Hf.
      apply find_some_iff in Hf as (_ & _ & _ & Hp & _). left. exact Hp.
    + destruct (home h); [|discriminate]. intros Hf.
      apply find_some_iff in Hf as (_ & _ & _ & Hp & _). left. exact Hp.
  - intros sp Hnt Hr He. unfold find_config_path, find_steam_path.
    rewrite Hnt, Hr, He. reflexivity.
Qed.

Lemma find_steam_path_trust_witness :
  path_exists stale_registry_host
    "C:/Program Files (x86)/Steam/userdata/1/730/local/cfg/cs2_video.txt" = true
  /\ find_config_path stale_registry_host = Some None.
Proof.
  split; [reflexivity|].
  destruct (find_steam_path_trust stale_registry_host) as [_ H].
  apply (H "E:/OldSteam"); reflexivity.
Defined.

End ConfigSearchSpec.

Module ManagerSpec.
Import Preset Samples2.

(** X7 -----------------------------------------------------------------
    [CS2PresetAdapter.apply_preset] changes no file other than the config
    file and its backup [<config>.backup_<timestamp>]; with [backup=False]
    only the config file can change. *)
Theorem apply_preset_frame (fs : fsys) (c : path) (p : preset) (backup : bool)
    (ts : string) :
  let '(b, fs') := apply_preset fs (Some c) p backup ts in
  (forall q, q <> full c -> q <> backup_name c ts -> fs' !! q = fs !! q)
  /\ (backup = false -> forall q, q <> full c -> fs' !! q = fs !! q).
Proof.
  unfold apply_preset.
  destruct (cfg_exists fs (Some c)) eqn:He; cbn [negb];
    [|split; intros; reflexivity].
  destruct p as [|kv p]; [split; intros; reflexivity|].
  destruct (missing_settings (kv :: p)) as [|m ms]; cbn [negb];
    [|split; intros; reflexivity].
  unfold cfg_exists in He. apply bool_decide_eq_true in He as [content Hc].
  pose proof (PresetSpec.full_ne_backup_name c ts) as Hne.
  apply String.eqb_neq in Hne.
  unfold apply_preset_checked. destruct backup.
  - rewrite (PresetSpec.backup_config_ok fs c ts content Hc).
    assert (Hc1 : <[backup_name c ts := content]> fs !! full c = Some content)
      by (rewrite lookup_insert_ne by congruence; exact Hc).
    rewrite (PresetSpec.rewrite_config_lookup _ c (kv :: p) _ content Hc1).
    destruct (update_settings (kv :: p) content 0) as [[content' applied]|].
    + destruct (0 <? applied)%nat; simpl; (split; [|discriminate]);
        intros q Hq1 Hq2; rewrite !lookup_insert_ne by congruence; reflexivity.
    + rewrite (PresetSpec.restore_backup_ok _ c (backup_name c ts) content)
        by (apply lookup_insert_eq || apply PresetSpec.backup_name_ne_full).
      simpl. split; [|discriminate].
      intros q Hq1 Hq2. rewrite !lookup_insert_ne by congruence. reflexivity.
  - rewrite (PresetSpec.rewrite_config_lookup fs c (kv :: p) None content Hc).
    destruct (update_settings (kv :: p) content 0) as [[content' applied]|];
      try destruct (0 <? applied)%nat; simpl;
      (split; [intros q Hq1 _ | intros _ q Hq1]);
      rewrite ?lookup_insert_ne by congruence; reflexivity.
Qed.

Section WithManager.
Import Manager.


Lemma apply_preset_frame_witness :
  snd (Preset.apply_preset Samples.brace_fs (Some Samples.cs2_cfg)
         bad_key_preset false "20250101_120000")
    !! backup_name Samples.cs2_cfg "20250101_120000"
  = Samples.brace_fs !! backup_name Samples.cs2_cfg "20250101_120000".
Proof.
  pose proof (apply_preset_frame Samples.brace_fs Samples.cs2_cfg bad_key_preset
                false "20250101_120000") as H.
  destruct (Preset.apply_preset Samples.brace_fs (Some Samples.cs2_cfg)
              bad_key_preset false "20250101_120000") as [b fs'].
  destruct H as [_ H]. cbn [snd].
  apply (H eq_refl). apply String.eqb_neq, PresetSpec.backup_name_ne_full.
Defined.


End WithManager.

End ManagerSpec.

Module PromptSpec.
Import Manager Prompt Samples2.
Local Open Scope Z_scope.

Lemma in_range_nth (l : list string) (n : Z) :
  ((0 <=? n - 1) && (n - 1 <? Z.of_nat (length l)))%bool = true ->
  (1 <= n <= Z.of_nat (length l))
  /\ nth_error l (Z.to_nat (n - 1)) = Some (nth (Z.to_nat (n - 1)) l "")
  /\ In (nth (Z.to_nat (n - 1)) l "") l.
Proof.
  intros H. apply andb_true_iff in H as [H1 H2].
  apply Z.leb_le in H1. apply Z.ltb_lt in H2.
  assert (Hl : (Z.to_nat (n - 1) < length l)%nat) by lia.
  split; [lia|]. split.
  - apply nth_error_nth'. exact Hl.
  - apply nth_In. exact Hl.
Qed.


Section WithInput.
Variable strip : string -> string.
Variable int_parse : string -> option Z.

(** X11 ----------------------------------------------------------------
    [prompt_for_game] returns a game only from a line whose stripped text
    [int] reads as a number [n] with [1 <= n <= len(available_games)], and
    the game is then [available_games[n-1]]: it never returns a game that
    is not offered, and it never uses a negative index.  With no games
    offered it accepts no line. *)
Theorem prompt_for_game_spec (available_games inputs : list string) :
  (forall g, prompt_for_game strip int_parse available_games inputs = Some g ->
     exists x n, In x inputs /\ int_parse (strip x) = Some n
       /\ 1 <= n <= Z.of_nat (length available_games)
       /\ nth_error available_games (Z.to_nat (n - 1)) = Some g)
  /\ (available_games = [] ->
      prompt_for_game strip int_parse available_games inputs = None).
Proof.
  split.
  - induction inputs as [|x xs IH]; intros g H; simpl in H; [discriminate|].
    destruct (int_parse (strip x)) as [n|] eqn:Hp.
    + destruct ((0 <=? n - 1) && (n - 1 <? Z.of_nat (length available_games)))%bool
        eqn:Hr.
      * injection H as <-. destruct (in_range_nth _ _ Hr) as (Hb & Hn & _).
        exists x, n. split; [left; reflexivity|]. auto.
      * destruct (IH g H) as (y & m & Hy & Hm). exists y, m. split; [right; exact Hy | exact Hm].
    + destruct (IH g H) as (y & m & Hy & Hm). exists y, m. split; [right; exact Hy | exact Hm].
  - intros ->. induction inputs as [|x xs IH]; simpl; [reflexivity|].
    destruct (int_parse (strip x)) as [n|]; [|exact IH].
    destruct (0 <=? n - 1) eqn:E; [|exact IH].
    replace (n - 1 <? Z.of_nat 0) with false; [exact IH|].
    symmetry. apply Z.ltb_ge. apply Z.leb_le in E. lia.
Qed.

(** X12 ----------------------------------------------------------------
    [prompt_for_runs] returns the number read from the first line [int]
    accepts with a positive value, and [prompt_for_cooldown] the first
    non-negative one: every line before it is rejected or out of range, so
    a run count of [0] or below, or a negative cooldown, never comes out of
    a prompt. *)
Theorem prompt_numbers_spec (inputs : list string) :
  (forall runs, prompt_for_runs strip int_parse inputs = Some runs ->
     0 < runs /\ exists pre x post, inputs = (pre ++ x :: post)%list
       /\ int_parse (strip x) = Some runs
       /\ Forall (fun y => forall m, int_parse (strip y) = Some m -> m <= 0) pre)
  /\ (forall cooldown, prompt_for_cooldown strip int_parse inputs = Some cooldown ->
     0 <= cooldown /\ exists pre x post, inputs = (pre ++ x :: post)%list
       /\ int_parse (strip x) = Some cooldown
       /\ Forall (fun y => forall m, int_parse (strip y) = Some m -> m < 0) pre).
Proof.
  split.
  - induction inputs as [|x xs IH]; intros r H; simpl in H; [discriminate|].
    destruct (int_parse (strip x)) as [n|] eqn:Hp.
    + destruct (0 <? n) eqn:Hn.
      * injection H as <-. apply Z.ltb_lt in Hn. split; [exact Hn|].
        exists [], x, xs. split; [reflexivity|]. split; [exact Hp | constructor].
      * destruct (IH r H) as (Hr & pre & y & post & -> & Hy & Hpre).
        split; [exact Hr|]. exists (x :: pre), y, post. split; [reflexivity|].
        split; [exact Hy|]. constructor; [|exact Hpre].
        intros m Hm. rewrite Hp in Hm. injection Hm as <-. apply Z.ltb_ge in Hn. exact Hn.
    + destruct (IH r H) as (Hr & pre & y & post & -> & Hy & Hpre).
      split; [exact Hr|]. exists (x :: pre), y, post. split; [reflexivity|].
      split; [exact Hy|]. constructor; [|exact Hpre].
      intros m Hm. rewrite Hp in Hm. discriminate.
  - induction inputs as [|x xs IH]; intros r H; simpl in H; [discriminate|].
    destruct (int_parse (strip x)) as [n|] eqn:Hp.
    + destruct (0 <=? n) eqn:Hn.
      * injection H as <-. apply Z.leb_le in Hn. split; [exact Hn|].
        exists [], x, xs. split; [reflexivity|]. split; [exact Hp | constructor].
      * destruct (IH r H) as (Hr & pre & y & post & -> & Hy & Hpre).
        split; [exact Hr|]. exists (x :: pre), y, post. split; [reflexivity|].
        split; [exact Hy|]. constructor; [|exact Hpre].
        intros m Hm. rewrite Hp in Hm. injection Hm as <-. apply Z.leb_gt in Hn. exact Hn.
    + destruct (IH r H) as (Hr & pre & y & post & -> & Hy & Hpre).
      split; [exact Hr|]. exists (x :: pre), y, post. split; [reflexivity|].
      split; [exact Hy|]. constructor; [|exact Hpre].
      intros m Hm. rewrite Hp in Hm. discriminate.
Qed.



End WithInput.

Lemma prompt_for_game_spec_witness :
  prompt_for_game id small_int ["cs2"] ["x"; "2"; "1"] = Some "cs2"
  /\ exists x n, In x ["x"; "2"; "1"] /\ small_int (id x) = Some n
       /\ 1 <= n <= Z.of_nat (length ["cs2"])
       /\ nth_error ["cs2"] (Z.to_nat (n - 1)) = Some "cs2".
Proof.
  split; [reflexivity|].
  destruct (prompt_for_game_spec id small_int ["cs2"] ["x"; "2"; "1"]) as [H _].
  apply H. reflexivity.
Defined.

Lemma prompt_numbers_spec_witness :
  prompt_for_runs id small_int ["0"; "-1"; "3"] = Some 3
  /\ prompt_for_cooldown id small_int ["-1"; "x"; "0"] = Some 0
  /\ 0 < 3 /\ 0 <= 0.
Proof.
  destruct (prompt_numbers_spec id small_int ["0"; "-1"; "3"]) as [Hr _].
  destruct (prompt_numbers_spec id small_int ["-1"; "x"; "0"]) as [_ Hc].
  split; [reflexivity|]. split; [reflexivity|].
  split; [apply (Hr 3); reflexivity | apply (Hc 0); reflexivity].
Defined.


End PromptSpec.
